(** * The chat proxy of my-business-site: classifier and request handler

    A shallow embedding of [src/api/chat.js] and of
    [src/unnamed/part_000], together with the properties the specification
    states about them.

    - [JS]       the fragment of the ECMAScript runtime the sources use:
                 strings as sequences of UTF-16 code units, JSON values,
                 property reads, [slice], [split], [trim], ...
    - [Eff]      the effects of the handler: the upstream [fetch], the
                 server log, exceptions and [try]/[catch].
    - [ApiChat]  [src/api/chat.js].
    - [Part000]  [src/unnamed/part_000].

    Definitions come first; the facts start at [JSFacts]:
    [ClassifierSpec] and [ClassifierTable] on the classifier, [HandlerSpec]
    and [HandlerFacts] on the handler of [src/api/chat.js], [Part000Facts]
    on the one of [src/unnamed/part_000]. *)

From Stdlib Require Import String Ascii List ZArith NArith Lia Bool.
From Stdlib Require Import Floats.SpecFloat.
Import ListNotations.
Local Open Scope string_scope.
Local Open Scope list_scope.

Set Warnings "-register-all".

(* ================================================================== *)
(** * The ECMAScript fragment *)
(* ================================================================== *)

Module JS.

(** A string is a finite sequence of UTF-16 code units; [length], [slice],
    [split], [startsWith] and [includes] all count code units. *)
Definition code_unit := N.
Definition jsstring := list code_unit.

(** A source literal made of Basic Latin characters only. *)
Definition lit (s : string) : jsstring :=
  map N_of_ascii (list_ascii_of_string s).

Definition SPACE : code_unit := 32%N.

(** [a === b] on two strings. *)
Fixpoint str_eqb (a b : jsstring) : bool :=
  match a, b with
  | [], [] => true
  | x :: a', y :: b' => N.eqb x y && str_eqb a' b'
  | _, _ => false
  end.

(** [s.startsWith(p)]. *)
Fixpoint startsWith (s p : jsstring) {struct p} : bool :=
  match p, s with
  | [], _ => true
  | y :: p', x :: s' => N.eqb x y && startsWith s' p'
  | _ :: _, [] => false
  end.

(** [s.includes(p)]: [p] occurs at some position of [s]. *)
Fixpoint includes (s p : jsstring) : bool :=
  startsWith s p ||
  match s with
  | [] => false
  | _ :: s' => includes s' p
  end.

(** [s.split(sep)] for a separator of one code unit: the pieces between
    the occurrences of [sep], empty pieces included; the empty string
    splits into one empty piece. *)
Fixpoint split (s : jsstring) (sep : code_unit) : list jsstring :=
  match s with
  | [] => [[]]
  | c :: s' =>
      if N.eqb c sep then [] :: split s' sep
      else match split s' sep with
           | w :: ws => (c :: w) :: ws
           | [] => [[c]]
           end
  end.

(** The relative index of [slice]: a negative index counts from the end,
    and both ends are clamped to [0 .. len]. *)
Definition rel_index (len i : Z) : Z :=
  if (i <? 0)%Z then Z.max (len + i) 0 else Z.min i len.

(** [l.slice(start, end)], on strings and on arrays alike. *)
Definition slice {A} (l : list A) (start stop : Z) : list A :=
  let len := Z.of_nat (length l) in
  let from := rel_index len start in
  let to := rel_index len stop in
  firstn (Z.to_nat (to - from)) (skipn (Z.to_nat from) l).

(** [l.slice(start)]: the end defaults to the length. *)
Definition slice_from {A} (l : list A) (start : Z) : list A :=
  slice l start (Z.of_nat (length l)).

(** WhiteSpace and LineTerminator code units, the ones [trim] strips:
    TAB, LF, VT, FF, CR, SP, NBSP, U+1680, U+2000..U+200A, U+2028, U+2029,
    U+202F, U+205F, U+3000 and U+FEFF. *)
Definition isWhiteSpace (c : code_unit) : bool :=
  ((9 <=? c) && (c <=? 13) || (c =? 32) || (c =? 160) || (c =? 5760)
   || (8192 <=? c) && (c <=? 8202) || (c =? 8232) || (c =? 8233)
   || (c =? 8239) || (c =? 8287) || (c =? 12288) || (c =? 65279))%N.

Fixpoint trimStart (s : jsstring) : jsstring :=
  match s with
  | c :: s' => if isWhiteSpace c then trimStart s' else s
  | [] => []
  end.

Definition trimEnd (s : jsstring) : jsstring := rev (trimStart (rev s)).

(** [s.trim()]. *)
Definition trim (s : jsstring) : jsstring := trimEnd (trimStart s).

(** [s.toLowerCase()] on strings of Basic Latin code units, where the
    Unicode default case conversion only moves [A-Z] to [a-z].  The
    classifier is parameterised by the runtime's case conversion; this
    instance is the one every evaluation below runs with, on Basic Latin
    inputs. *)
Definition toLowerCase_basic_latin (s : jsstring) : jsstring :=
  map (fun c => if ((65 <=? c) && (c <=? 90))%N then (c + 32)%N else c) s.

(** ** JSON values

    What [JSON.parse] produces, plus [undefined] (the result of reading a
    missing property).  Numbers are IEEE doubles. *)
Inductive value :=
| VUndefined
| VNull
| VBool (b : bool)
| VNum (x : spec_float)
| VStr (s : jsstring)
| VArr (elems : list value)
| VObj (props : list (jsstring * value)).

Inductive exn :=
| TypeError
| SyntaxError
| NetworkError
| Error (message : jsstring).

(** ToBoolean: [undefined], [null], [false], [0], [-0], [NaN] and the
    empty string are falsy. *)
Definition ToBoolean (v : value) : bool :=
  match v with
  | VUndefined | VNull => false
  | VBool b => b
  | VNum (S754_zero _) | VNum S754_nan => false
  | VNum _ => true
  | VStr s => match s with [] => false | _ => true end
  | VArr _ | VObj _ => true
  end.

(** [typeof v === 'string']. *)
Definition typeof_string (v : value) : bool :=
  match v with VStr _ => true | _ => false end.

(** [v === s] for a string [s]: strict equality never converts. *)
Definition strict_eq_str (v : value) (s : jsstring) : bool :=
  match v with VStr t => str_eqb t s | _ => false end.

(** The own property [name] of an object whose keys are distinct, as
    [JSON.parse] leaves them. *)
Fixpoint lookup (props : list (jsstring * value)) (name : jsstring) : value :=
  match props with
  | [] => VUndefined
  | (k, v) :: rest => if str_eqb k name then v else lookup rest name
  end.

(** [v.name] for a [name] that is neither an index, [length] nor a member
    of a built-in prototype (the sources read [message], [history],
    [sender], [text], [choices] and [content]): an own property of an
    object, [undefined] on any other value, and a TypeError on [null] and
    [undefined]. *)
Definition get (v : value) (name : jsstring) : exn + value :=
  match v with
  | VUndefined | VNull => inl TypeError
  | VObj props => inr (lookup props name)
  | _ => inr VUndefined
  end.

(** [v[0]] on a value other than [null] and [undefined]. *)
Definition get0 (v : value) : value :=
  match v with
  | VArr (x :: _) => x
  | VStr (c :: _) => VStr [c]
  | VObj props => lookup props (lit "0")
  | _ => VUndefined
  end.

End JS.

(* ================================================================== *)
(** * Effects of the handler *)
(* ================================================================== *)

Module Eff.
Import JS.

(** The inbound request, as far as the handler reads it. *)
Record Request := { method : jsstring; body : value }.

(** [res.status(status).json(json)]. *)
Record HttpResult := { status : Z; json : value }.

Inductive Role := system | user | assistant.

(** One element of [messages].  [content] is whatever the turn carried,
    [undefined] included ([JSON.stringify] then leaves the key out). *)
Record ChatMessage := { role : Role; content : value }.

(** The object handed to [JSON.stringify] as the body of the upstream call. *)
Record Completion := {
  model : jsstring;
  messages : list ChatMessage;
  max_tokens : Z;
  temperature : spec_float
}.

(** The arguments of [fetch]. *)
Record FetchRequest := {
  url : jsstring;
  fetch_method : jsstring;
  headers : list (jsstring * jsstring);
  fetch_body : Completion
}.

(** What the handler reads of the upstream response: [response.ok],
    [await response.text()] and [await response.json()], which rejects with
    a SyntaxError ([None]) when the payload is not JSON. *)
Record Response := {
  ok : bool;
  response_text : jsstring;
  response_json : option value
}.

(** One [console.error] call: the label and what is printed after it. *)
Inductive LogEntry :=
| LogText (label : jsstring) (text : jsstring)
| LogMessageOf (label : jsstring) (e : exn).

(** A computation that returns an [A], throws, logs, or awaits the upstream
    call; [fetch] itself may reject. *)
Inductive prog (A : Type) : Type :=
| Ret (a : A)
| Throw (e : exn)
| Fetch (r : FetchRequest) (k : exn + Response -> prog A)
| ConsoleError (l : LogEntry) (k : prog A).

Arguments Ret {A} a.
Arguments Throw {A} e.
Arguments Fetch {A} r k.
Arguments ConsoleError {A} l k.

Fixpoint bind {A B} (p : prog A) (f : A -> prog B) : prog B :=
  match p with
  | Ret a => f a
  | Throw e => Throw e
  | Fetch r k => Fetch r (fun o => bind (k o) f)
  | ConsoleError l k => ConsoleError l (bind k f)
  end.

(** [try { p } catch (err) { h err }]. *)
Fixpoint try_catch {A} (p : prog A) (h : exn -> prog A) : prog A :=
  match p with
  | Ret a => Ret a
  | Throw e => h e
  | Fetch r k => Fetch r (fun o => try_catch (k o) h)
  | ConsoleError l k => ConsoleError l (try_catch k h)
  end.

(** A pure step that may throw. *)
Definition lift {A} (x : exn + A) : prog A :=
  match x with inl e => Throw e | inr a => Ret a end.

(** [await fetch(...)]. *)
Definition fetch (r : FetchRequest) : prog Response :=
  Fetch r lift.

(** Bind of the exception monad of the pure steps. *)
Definition ebind {A B} (x : exn + A) (f : A -> exn + B) : exn + B :=
  match x with inl e => inl e | inr a => f a end.

(** [l.map(f)] for a callback that may throw: the first exception ends the
    loop. *)
Fixpoint Array_map {A B} (f : A -> exn + B) (l : list A) : exn + list B :=
  match l with
  | [] => inr []
  | x :: l' =>
      ebind (f x) (fun y => ebind (Array_map f l') (fun ys => inr (y :: ys)))
  end.

(** What an observer of one invocation sees, in order. *)
Inductive event :=
| Fetched (r : FetchRequest)
| Logged (l : LogEntry).

(** One invocation against an upstream that answers [upstream r] to the
    call [r]: the events, and the response or the uncaught exception. *)
Fixpoint run {A} (upstream : FetchRequest -> exn + Response) (p : prog A)
  : list event * (exn + A) :=
  match p with
  | Ret a => ([], inr a)
  | Throw e => ([], inl e)
  | Fetch r k =>
      let (t, x) := run upstream (k (upstream r)) in (Fetched r :: t, x)
  | ConsoleError l k =>
      let (t, x) := run upstream k in (Logged l :: t, x)
  end.

(** The log entries among the events. *)
Fixpoint logs (t : list event) : list LogEntry :=
  match t with
  | [] => []
  | Fetched _ :: t' => logs t'
  | Logged l :: t' => l :: logs t'
  end.

(** The upstream calls among the events. *)
Fixpoint calls (t : list event) : list FetchRequest :=
  match t with
  | [] => []
  | Fetched r :: t' => r :: calls t'
  | Logged _ :: t' => calls t'
  end.

End Eff.

Declare Scope prog_scope.
Delimit Scope prog_scope with prog.
Notation "x <- c ;; k" := (Eff.bind c (fun x => k))
  (at level 61, c at next level, right associativity) : prog_scope.
Notation "' pat <- c ;; k" :=
  (Eff.bind c (fun x => match x with pat => k end))
  (at level 61, pat pattern, c at next level, right associativity)
  : prog_scope.
Notation "c ;; k" := (Eff.bind c (fun _ => k))
  (at level 61, right associativity) : prog_scope.
Declare Scope exn_scope.
Delimit Scope exn_scope with exn.
Notation "x <- c ;; k" := (Eff.ebind c (fun x => k))
  (at level 61, c at next level, right associativity) : exn_scope.

(* ================================================================== *)
(** * src/api/chat.js: classifier and handler *)
(* ================================================================== *)

Module ApiChat.
Import JS Eff.

Inductive Tier := simple | medium | complex.

(** The string each tier is in the source. *)
Definition tier_name (t : Tier) : jsstring :=
  match t with
  | simple => lit "simple"
  | medium => lit "medium"
  | complex => lit "complex"
  end.

Definition MODELS (t : Tier) : jsstring :=
  match t with
  | simple => lit "x-ai/grok-4.1-fast"
  | medium => lit "x-ai/grok-4.1-fast"
  | complex => lit "x-ai/grok-4.1-fast"
  end.

Definition simplePatterns : list jsstring :=
  map lit
    ["hi"; "hello"; "hey"; "thanks"; "thank you"; "ok"; "okay";
     "yes"; "no"; "sure"; "great"; "awesome"; "cool"; "got it"].

Definition complexPatterns : list jsstring :=
  map lit
    ["integrate"; "api"; "technical"; "architecture"; "how exactly";
     "explain in detail"; "step by step"; "compare"; "difference between";
     "custom"; "specific"; "enterprise"; "compliance"; "gdpr"; "soc";
     "multiple"; "several"; "and also"; "also want"; "in addition"].

(** [message.split(' ').length] *)
Definition wordCount (message : jsstring) : nat :=
  length (split message SPACE).

(** [simplePatterns.some(p => text === p || text.startsWith(p + ' '))] *)
Definition isGreeting (text : jsstring) : bool :=
  existsb (fun p => str_eqb text p || startsWith text (p ++ lit " "))
          simplePatterns.

(** [complexPatterns.some(p => text.includes(p)) || wordCount > 25] *)
Definition isComplex (text : jsstring) (wordCount : nat) : bool :=
  existsb (fun p => includes text p) complexPatterns || (25 <? wordCount)%nat.

Section Classifier.

(** [String.prototype.toLowerCase] of the runtime: the Unicode default case
    conversion, whose table is not part of the repository. *)
Variable toLowerCase : jsstring -> jsstring.

(** [message.toLowerCase().trim()] *)
Definition normalize (message : jsstring) : jsstring :=
  trim (toLowerCase message).

Definition detectComplexity (message : jsstring) (history : list value) : Tier :=
  let text := normalize message in
  let wordCount := wordCount message in
  let historyLen := length history in
  if isGreeting text || (wordCount <=? 4)%nat then simple
  else if isComplex text wordCount || (8 <? historyLen)%nat then complex
  else medium.

End Classifier.

Definition QUOTE : code_unit := 34%N.
Definition EM_DASH : code_unit := 8212%N.
Definition LF : code_unit := 10%N.

(** The lines of a template literal, joined by line feeds. *)
Fixpoint template (lines : list jsstring) : jsstring :=
  match lines with
  | [] => []
  | [l] => l
  | l :: rest => l ++ LF :: template rest
  end.

Definition SYSTEM_PROMPT : jsstring :=
  template
    [lit "You are Emily, a customer service representative for Valure " ++ [EM_DASH] ++ lit " an AI automation agency that helps home service contractors eliminate repetitive work and recover lost revenue through custom-built AI systems.";
     [];
     lit "Your personality:";
     lit "- Warm, conversational, and genuinely helpful " ++ [EM_DASH] ++ lit " like a knowledgeable colleague, not a scripted bot";
     lit "- Business oriented and results focused " ++ [EM_DASH] ++ lit " you care about solving real problems, not just answering questions";
     lit "- Experienced " ++ [EM_DASH] ++ lit " you give specific, informed answers, never vague or generic ones";
     lit "- Honest " ++ [EM_DASH] ++ lit " if you don't know something, you say so and direct them to the team";
     lit "- Concise " ++ [EM_DASH] ++ lit " 2 to 3 sentences per response unless the question genuinely requires more";
     lit "- Never use emoji of any kind";
     lit "- Never start a response with " ++ [QUOTE] ++ lit "Great question" ++ [QUOTE] ++ lit " or " ++ [QUOTE] ++ lit "Absolutely" ++ [QUOTE] ++ lit " or similar hollow openers";
     lit "- Always acknowledge what the visitor said before answering " ++ [EM_DASH] ++ lit " show you're actually listening";
     lit "- End most responses with one natural follow up question to keep the conversation going";
     [];
     lit "How you approach contractors:";
     lit "- These are busy tradespeople " ++ [EM_DASH] ++ lit " plumbers, electricians, HVAC techs " ++ [EM_DASH] ++ lit " not corporate executives";
     lit "- They're often stressed, running lean, and losing money to problems they haven't had time to fix";
     lit "- Acknowledge their pain specifically before moving to the solution";
     lit "- Speak plainly " ++ [EM_DASH] ++ lit " no jargon, no buzzwords, no fluff";
     lit "- Be direct about what Valure does and what it costs " ++ [EM_DASH] ++ lit " contractors respect straight talk";
     [];
     lit "Key facts about Valure " ++ [EM_DASH] ++ lit " know these cold:";
     lit "- We build custom AI automation systems, not off-the-shelf tools or templates";
     lit "- Core services: missed call text-back, appointment confirmations, review requests, lead follow-up sequences, AI workflow automation, AI agents, custom integrations, data and reporting automation";
     lit "- Missed call text-back: when a call goes unanswered, AI sends a text within seconds keeping the lead warm before they call a competitor";
     lit "- Pricing: project builds start from $8,000, managed retainers start from $3,500 per month";
     lit "- Free automation audit: 30 minute call, zero pressure, zero cost " ++ [EM_DASH] ++ lit " we map their workflows and show them exactly what automation is worth to their business";
     lit "- Timeline: first automation live within 14 days of kickoff, simple workflows in as little as 7 days";
     lit "- No contracts " ++ [EM_DASH] ++ lit " cancel anytime";
     lit "- Data is encrypted in transit and at rest, never shared with third parties, GDPR compliant";
     lit "- We respond to all inquiries within 2 business hours Monday through Friday";
     lit "- Target clients: home service contractors doing $500K to $50M in revenue";
     [];
     lit "How to handle common situations:";
     lit "- Visitor asks about cost: give the real numbers, then explain what they get for it";
     lit "- Visitor mentions missing calls: acknowledge how costly that is specifically, then explain the text-back system";
     lit "- Visitor seems hesitant: don't push " ++ [EM_DASH] ++ lit " acknowledge their hesitation and offer the free audit as a no risk way to get clarity";
     lit "- Visitor asks something outside your knowledge: say " ++ [QUOTE] ++ lit "That's a good one for our team " ++ [EM_DASH] ++ lit " they can give you a straight answer. Fill out the contact form and we'll get back to you within 2 business hours." ++ [QUOTE];
     lit "- Visitor is ready to move forward: direct them clearly to the contact form below";
     [];
     lit "Never fabricate pricing, timelines, or promises not listed above. When in doubt, direct to the team."].

Section Handler.

Variable toLowerCase : jsstring -> jsstring.

(** [process.env.OPENROUTER_API_KEY]: a string, or [undefined] when the
    variable is not set. *)
Variable OPENROUTER_API_KEY : option jsstring.

Definition env_value (x : option jsstring) : value :=
  match x with Some s => VStr s | None => VUndefined end.

(** A string interpolated in a template literal. *)
Definition interpolate (x : option jsstring) : jsstring :=
  match x with Some s => s | None => lit "undefined" end.

Definition error_body (text : string) : value :=
  VObj [(lit "error", VStr (lit text))].

Definition respond (status : Z) (json : value) : prog HttpResult :=
  Ret {| status := status; json := json |}.

(** [const { message, history = [] } = req.body]: a TypeError when the body
    is [null] or [undefined]; the default replaces an [undefined]
    [history]. *)
Definition destructure (body : value) : exn + (value * value) :=
  (message <- get body (lit "message") ;;
   history <- get body (lit "history") ;;
   inr (message,
        match history with VUndefined => VArr [] | _ => history end))%exn.

(** [message.slice(0, 500)] of a string. *)
Definition sanitize (message : value) : exn + jsstring :=
  match message with
  | VStr m => inr (slice m 0 500)
  | _ => inl TypeError
  end.

(** [history] is used as an array: [history.length] in [detectComplexity]
    and [history.slice(-6).map(...)] after it.  On every other value one of
    these raises a TypeError ([length] of [null]; [slice] or [map] that is
    no function on a number, a boolean, a string or an object), whatever
    the tier computed in between, and before anything is sent or logged. *)
Definition as_array (history : value) : exn + list value :=
  match history with
  | VArr elems => inr elems
  | _ => inl TypeError
  end.

(** [m => ({ role: m.sender === 'user' ? 'user' : 'assistant',
             content: m.text })] *)
Definition chatTurn (m : value) : exn + ChatMessage :=
  (sender <- get m (lit "sender") ;;
   text <- get m (lit "text") ;;
   inr {| role := if strict_eq_str sender (lit "user") then user
                  else assistant;
          content := text |})%exn.

(** [history.slice(-6).map(...)] *)
Definition chatHistory (history : list value) : exn + list ChatMessage :=
  Array_map chatTurn (slice_from history (-6)).

Definition nullish (v : value) : bool :=
  match v with VUndefined | VNull => true | _ => false end.

(** [data.choices?.[0]?.message?.content]: the first read throws on a
    [null] payload; each [?.] ends the chain with [undefined] on a [null]
    or [undefined] base. *)
Definition replyOf (data : value) : exn + value :=
  (choices <- get data (lit "choices") ;;
   if nullish choices then inr VUndefined else
   let first := get0 choices in
   if nullish first then inr VUndefined else
   message <- get first (lit "message") ;;
   if nullish message then inr VUndefined else
   get message (lit "content"))%exn.

(** 0.7, the nearest double. *)
Definition temperature_0_7 : spec_float :=
  S754_finite false 6305039478318694 (-53).

Definition upstreamRequest (model : jsstring) (chatHistory : list ChatMessage)
    (sanitized : jsstring) : FetchRequest :=
  {| url := lit "https://openrouter.ai/api/v1/chat/completions";
     fetch_method := lit "POST";
     headers :=
       [(lit "Authorization", lit "Bearer " ++ interpolate OPENROUTER_API_KEY);
        (lit "Content-Type", lit "application/json");
        (lit "HTTP-Referer", lit "https://valure.io");
        (lit "X-Title", lit "Valure AI Assistant")];
     fetch_body :=
       {| model := model;
          messages :=
            [{| role := system; content := VStr SYSTEM_PROMPT |}]
            ++ chatHistory
            ++ [{| role := user; content := VStr sanitized |}];
          max_tokens := 300;
          temperature := temperature_0_7 |} |}.

(** The [try] block and its [catch]. *)
Definition exchange (model : jsstring) (complexity : Tier)
    (chatHistory : list ChatMessage) (sanitized : jsstring)
  : prog HttpResult :=
  try_catch
    (response <- fetch (upstreamRequest model chatHistory sanitized) ;;
     (if negb (ok response) then
        let err := response_text response in
        ConsoleError (LogText (lit "OpenRouter error:") err)
          (Throw (Error (lit "OpenRouter request failed")))
      else Ret tt) ;;
     data <- lift (match response_json response with
                   | Some data => inr data
                   | None => inl SyntaxError
                   end) ;;
     reply <- lift (replyOf data) ;;
     if negb (ToBoolean reply) then
       Throw (Error (lit "No response from model"))
     else
       respond 200
         (VObj [(lit "reply", reply);
                (lit "model", VStr model);
                (lit "complexity", VStr (tier_name complexity))]))%prog
    (fun err =>
       ConsoleError (LogMessageOf (lit "Chat handler error:") err)
         (respond 500 (error_body "Something went wrong. Please try again."))).

(** The handler from line 101 on, once [message] has passed validation. *)
Definition proceed (message history : value) : prog HttpResult :=
  (sanitized <- lift (sanitize message) ;;
   history <- lift (as_array history) ;;
   let complexity := detectComplexity toLowerCase sanitized history in
   let model := MODELS complexity in
   chatHistory <- lift (chatHistory history) ;;
   exchange model complexity chatHistory sanitized)%prog.

Definition handler (req : Request) : prog HttpResult :=
  if negb (str_eqb (method req) (lit "POST")) then
    respond 405 (error_body "Method not allowed")
  else if negb (ToBoolean (env_value OPENROUTER_API_KEY)) then
    respond 500 (error_body "API key not configured")
  else
    ('(message, history) <- lift (destructure (body req)) ;;
     if negb (ToBoolean message) || negb (typeof_string message) then
       respond 400 (error_body "Invalid message")
     else proceed message history)%prog.

End Handler.

(** ** The answers and the vocabulary of the specification *)

Definition method_not_allowed : HttpResult :=
  {| status := 405; json := error_body "Method not allowed" |}.

Definition key_not_configured : HttpResult :=
  {| status := 500; json := error_body "API key not configured" |}.

Definition invalid_message : HttpResult :=
  {| status := 400; json := error_body "Invalid message" |}.

Definition generic_failure : HttpResult :=
  {| status := 500;
     json := error_body "Something went wrong. Please try again." |}.

(** How one prior turn is forwarded: with role [user] when its [sender]
    is the string 'user', with role [assistant] for any other sender, and
    with its [text] as content. *)
Definition forwarded (turn : value) (sent : ChatMessage) : Prop :=
  exists sender text,
    get turn (lit "sender") = inr sender /\
    get turn (lit "text") = inr text /\
    (sender = VStr (lit "user") -> role sent = user) /\
    (sender <> VStr (lit "user") -> role sent = assistant) /\
    content sent = text.

(** A reply can be extracted from a response: the payload is JSON and the
    value at [choices[0].message.content] is truthy. *)
Definition extractable (resp : Response) (reply : value) : Prop :=
  exists data,
    response_json resp = Some data /\
    replyOf data = inr reply /\
    ToBoolean reply = true.

(** [v?.name] on a JSON value: an own property of an object, [undefined]
    on everything else, [null] and [undefined] included. *)
Definition member (v : value) (name : jsstring) : value :=
  match v with
  | VObj props => lookup props name
  | _ => VUndefined
  end.

(** What a completion payload holds at [choices[0].message.content]:
    read off the payload, [undefined] where the path breaks off. *)
Definition payload_content (data : value) : value :=
  member (member (get0 (member data (lit "choices"))) (lit "message"))
         (lit "content").

(** The response carries no reply: its payload is not JSON, or what it
    holds at [choices[0].message.content] is absent or falsy ([undefined],
    [null], [false], [0], [NaN] or the empty string). *)
Definition no_reply (resp : Response) : Prop :=
  response_json resp = None \/
  exists data,
    response_json resp = Some data /\
    ToBoolean (payload_content data) = false.

(** The request passes every check before the [try] block: it is a POST,
    the key is set, the body carries the non-empty string [m] as [message]
    and the array [hist] as [history], and [turns] are its forwarded
    turns. *)
Definition accepted (key : option jsstring) (req : Request) (m : jsstring)
    (hist : list value) (turns : list ChatMessage) : Prop :=
  method req = lit "POST" /\
  ToBoolean (env_value key) = true /\
  destructure (body req) = inr (VStr m, VArr hist) /\
  m <> [] /\
  chatHistory hist = inr turns.

End ApiChat.

(* ================================================================== *)
(** * src/unnamed/part_000: classifier and handler *)
(* ================================================================== *)

Module Part000.
Import JS Eff.

Definition simplePatterns : list jsstring :=
  map lit
    ["hi"; "hello"; "hey"; "thanks"; "thank you"; "ok"; "okay";
     "yes"; "no"; "sure"; "great"; "awesome"; "cool"; "got it"].

Definition complexPatterns : list jsstring :=
  map lit
    ["integrate"; "api"; "technical"; "architecture"; "how exactly";
     "explain in detail"; "step by step"; "compare"; "difference between";
     "custom"; "specific"; "enterprise"; "compliance"; "gdpr"; "soc";
     "multiple"; "several"; "and also"; "also want"; "in addition"].

Section Classifier.

Variable toLowerCase : jsstring -> jsstring.

(** The tiers are the same three strings in both files; the classifier of
    this file is typed with the tiers of [ApiChat]. *)
Definition detectComplexity (message : jsstring) (history : list value)
  : ApiChat.Tier :=
  let text := trim (toLowerCase message) in
  let wordCount := length (split message SPACE) in
  let historyLen := length history in
  let isGreeting :=
    existsb (fun p => str_eqb text p || startsWith text (p ++ lit " "))
            simplePatterns in
  if isGreeting || (wordCount <=? 4)%nat then ApiChat.simple
  else
    let isComplex :=
      existsb (fun p => includes text p) complexPatterns
      || (25 <? wordCount)%nat in
    if isComplex || (8 <? historyLen)%nat then ApiChat.complex
    else ApiChat.medium.

End Classifier.

(** ** The handler of this file

    It differs from the one of [src/api/chat.js] in the model table and
    in the persona prompt; the steps that are the same text in both files
    (destructuring, validation, truncation, the history window, reading
    the reply) are the definitions of [ApiChat]. *)

Definition MODELS (t : ApiChat.Tier) : jsstring :=
  match t with
  | ApiChat.simple => lit "meta-llama/llama-3.2-3b-instruct:free"
  | ApiChat.medium => lit "mistralai/mistral-7b-instruct:free"
  | ApiChat.complex => lit "anthropic/claude-3-haiku-20240307"
  end.

Definition EN_DASH : code_unit := 8211%N.

Definition SYSTEM_PROMPT : jsstring :=
  ApiChat.template
    [lit "You are Emily, a friendly and professional AI assistant for Valure " ++ [ApiChat.EM_DASH] ++ lit " an AI automation agency that helps home service contractors (plumbers, electricians, HVAC technicians) eliminate repetitive work through custom AI automation.";
     [];
     lit "Your personality: Warm, confident, knowledgeable, concise. You speak in plain business language " ++ [ApiChat.EM_DASH] ++ lit " no jargon. You use light emoji to keep things approachable but stay professional.";
     [];
     lit "Key facts about Valure:";
     lit "- We build custom AI automation systems " ++ [ApiChat.EM_DASH] ++ lit " not off-the-shelf tools or templates";
     lit "- Core services: missed call text-back, appointment confirmations, review requests, lead follow-up sequences, AI workflow automation, AI agents, custom integrations, data & reporting automation";
     lit "- Pricing: Project builds from $8,000. Managed retainers from $3,500/month. Free audit always included";
     lit "- Timeline: First automation live within 14 days of kickoff. Simple workflows in 7 days";
     lit "- Target clients: Home service contractors doing $500K" ++ [EN_DASH] ++ lit "$50M revenue";
     lit "- Free automation audit: 30-minute call, zero pressure, zero cost";
     lit "- No contracts " ++ [ApiChat.EM_DASH] ++ lit " cancel anytime";
     lit "- Data is encrypted, secure, GDPR-compliant, never shared";
     lit "- Response time: Within 2 business hours Mon" ++ [EN_DASH] ++ lit "Fri";
     [];
     lit "Your goals:";
     lit "1. Answer questions about Valure clearly and honestly";
     lit "2. Identify the visitor's pain points";
     lit "3. Guide them toward booking a free audit";
     lit "4. Never make up pricing or promises not listed above";
     lit "5. For anything outside your knowledge, direct them to the contact form";
     [];
     lit "When guiding to the contact form say: " ++ [ApiChat.QUOTE] ++ lit "Scroll down to our contact form " ++ [ApiChat.EM_DASH] ++ lit " we respond within 2 business hours and the audit is completely free." ++ [ApiChat.QUOTE];
     [];
     lit "Keep responses concise " ++ [ApiChat.EM_DASH] ++ lit " 2-4 sentences max unless the question genuinely requires more detail."].

Section Handler.

Variable toLowerCase : jsstring -> jsstring.
Variable OPENROUTER_API_KEY : option jsstring.

Definition upstreamRequest (model : jsstring) (chatHistory : list ChatMessage)
    (sanitized : jsstring) : FetchRequest :=
  {| url := lit "https://openrouter.ai/api/v1/chat/completions";
     fetch_method := lit "POST";
     headers :=
       [(lit "Authorization",
         lit "Bearer " ++ ApiChat.interpolate OPENROUTER_API_KEY);
        (lit "Content-Type", lit "application/json");
        (lit "HTTP-Referer", lit "https://valure.io");
        (lit "X-Title", lit "Valure AI Assistant")];
     fetch_body :=
       {| model := model;
          messages :=
            [{| role := system; content := VStr SYSTEM_PROMPT |}]
            ++ chatHistory
            ++ [{| role := user; content := VStr sanitized |}];
          max_tokens := 300;
          temperature := ApiChat.temperature_0_7 |} |}.

(** The [try] block and its [catch]. *)
Definition exchange (model : jsstring) (complexity : ApiChat.Tier)
    (chatHistory : list ChatMessage) (sanitized : jsstring)
  : prog HttpResult :=
  try_catch
    (response <- fetch (upstreamRequest model chatHistory sanitized) ;;
     (if negb (ok response) then
        let err := response_text response in
        ConsoleError (LogText (lit "OpenRouter error:") err)
          (Throw (Error (lit "OpenRouter request failed")))
      else Ret tt) ;;
     data <- lift (match response_json response with
                   | Some data => inr data
                   | None => inl SyntaxError
                   end) ;;
     reply <- lift (ApiChat.replyOf data) ;;
     if negb (ToBoolean reply) then
       Throw (Error (lit "No response from model"))
     else
       ApiChat.respond 200
         (VObj [(lit "reply", reply);
                (lit "model", VStr model);
                (lit "complexity", VStr (ApiChat.tier_name complexity))]))%prog
    (fun err =>
       ConsoleError (LogMessageOf (lit "Chat handler error:") err)
         (ApiChat.respond 500
            (ApiChat.error_body "Something went wrong. Please try again."))).

(** The handler from line 86 on, once [message] has passed validation. *)
Definition proceed (message history : value) : prog HttpResult :=
  (sanitized <- lift (ApiChat.sanitize message) ;;
   history <- lift (ApiChat.as_array history) ;;
   let complexity := detectComplexity toLowerCase sanitized history in
   let model := MODELS complexity in
   chatHistory <- lift (ApiChat.chatHistory history) ;;
   exchange model complexity chatHistory sanitized)%prog.

Definition handler (req : Request) : prog HttpResult :=
  if negb (str_eqb (method req) (lit "POST")) then
    ApiChat.respond 405 (ApiChat.error_body "Method not allowed")
  else if negb (ToBoolean (ApiChat.env_value OPENROUTER_API_KEY)) then
    ApiChat.respond 500 (ApiChat.error_body "API key not configured")
  else
    ('(message, history) <- lift (ApiChat.destructure (body req)) ;;
     if negb (ToBoolean message) || negb (typeof_string message) then
       ApiChat.respond 400 (ApiChat.error_body "Invalid message")
     else proceed message history)%prog.

End Handler.

End Part000.


(* ================================================================== *)
(** * Sample inputs *)
(* ================================================================== *)

Module Samples.
Import JS Eff ApiChat.

Definition lower := toLowerCase_basic_latin.

(** A greeting that also carries complex keywords. *)
Definition greeting_with_keywords : jsstring :=
  lit "Hi there can you integrate our custom API with the enterprise CRM".

(** A greeting of seven words that mentions GDPR. *)
Definition gdpr_greeting : jsstring :=
  lit "Hi is your GDPR handling documented anywhere".

(** A question of six words that mentions GDPR. *)
Definition gdpr_question : jsstring :=
  lit "Is the hosted data GDPR compliant".

(** Six words, no greeting, no complex keyword. *)
Definition neutral_message : jsstring :=
  lit "what does the audit call cover".

Definition turn (sender text : string) : value :=
  VObj [(lit "sender", VStr (lit sender)); (lit "text", VStr (lit text))].

Definition ten_turns : list value :=
  [turn "user" "t0"; turn "bot" "t1"; turn "user" "t2"; turn "bot" "t3";
   turn "user" "t4"; turn "bot" "t5"; turn "user" "t6"; turn "emily" "t7";
   turn "user" "t8"; turn "bot" "t9"].

(** ** Requests and upstream behaviours *)

Definition key : option jsstring := Some (lit "sk-or-test").

Definition post (fields : list (jsstring * value)) : Request :=
  {| method := lit "POST"; body := VObj fields |}.

(** A POST with a six-word message and ten prior turns. *)
Definition request_ten_turns : Request :=
  post [(lit "message", VStr neutral_message);
        (lit "history", VArr ten_turns)].

(** 600 code units. *)
Definition long_message : jsstring :=
  concat (repeat (lit "quote ") 100).

Definition request_long_message : Request :=
  post [(lit "message", VStr long_message)].

(** A POST whose message is the empty string. *)
Definition request_empty_message : Request :=
  post [(lit "message", VStr [])].

(** A GET without a body. *)
Definition request_get : Request :=
  {| method := lit "GET"; body := VUndefined |}.

(** A POST without a body. *)
Definition request_no_body : Request :=
  {| method := lit "POST"; body := VUndefined |}.

Definition completion (text : string) : value :=
  VObj [(lit "choices",
         VArr [VObj [(lit "message",
                      VObj [(lit "role", VStr (lit "assistant"));
                            (lit "content", VStr (lit text))])]])].

(** An upstream that answers every call with a completion. *)
Definition upstream_replies (_ : FetchRequest) : exn + Response :=
  inr {| ok := true;
         response_text := lit "(payload)";
         response_json := Some (completion "Happy to help.") |}.

Definition rate_limited : Response :=
  {| ok := false;
     response_text := lit "rate limit exceeded for key sk-or-test";
     response_json := None |}.

(** An upstream that answers every call with an error status. *)
Definition upstream_fails (_ : FetchRequest) : exn + Response :=
  inr rate_limited.

(** The six turns forwarded for [ten_turns]. *)
Definition six_turns : list ChatMessage :=
  [{| role := user; content := VStr (lit "t4") |};
   {| role := assistant; content := VStr (lit "t5") |};
   {| role := user; content := VStr (lit "t6") |};
   {| role := assistant; content := VStr (lit "t7") |};
   {| role := user; content := VStr (lit "t8") |};
   {| role := assistant; content := VStr (lit "t9") |}].

(** The upstream call made for [request_ten_turns]. *)
Definition call_ten_turns : FetchRequest :=
  upstreamRequest key (lit "x-ai/grok-4.1-fast") six_turns neutral_message.

(** The upstream call made for [request_long_message]. *)
Definition call_long_message : FetchRequest :=
  upstreamRequest key (lit "x-ai/grok-4.1-fast") []
    (concat (repeat (lit "quote ") 83) ++ lit "qu").

(** ** More inputs *)

(** Six words; 'soc' occurs inside 'associate' and 'api' inside 'rapid'. *)
Definition keyword_inside_words : jsstring :=
  lit "My associate needs a rapid quote".

(** A POST whose history is a string. *)
Definition request_history_string : Request :=
  post [(lit "message", VStr neutral_message);
        (lit "history", VStr (lit "earlier"))].

(** Eight turns: a [null] first, outside the window of six. *)
Definition null_then_seven : list value :=
  [VNull; turn "user" "t1"; turn "bot" "t2"; turn "user" "t3";
   turn "bot" "t4"; turn "user" "t5"; turn "bot" "t6"; turn "user" "t7"].

(** An upstream that cannot be reached. *)
Definition upstream_unreachable (_ : FetchRequest) : exn + Response :=
  inl NetworkError.

(** A POST with a message and no history. *)
Definition request_no_history : Request :=
  post [(lit "message", VStr neutral_message)].

(** The upstream call made for [request_no_history]. *)
Definition call_no_history : FetchRequest :=
  upstreamRequest key (lit "x-ai/grok-4.1-fast") [] neutral_message.

Definition happy_answer : Response :=
  {| ok := true;
     response_text := lit "(payload)";
     response_json := Some (completion "Happy to help.") |}.

Definition other_key : option jsstring := Some (lit "sk-or-other").

(** ** Upstream answers with a success status *)

(** A completion whose content is a list of parts, not a text. *)
Definition parts : value :=
  VArr [VObj [(lit "type", VStr (lit "text"));
              (lit "text", VStr (lit "Happy to help."))]].

Definition parts_payload : value :=
  VObj [(lit "choices",
         VArr [VObj [(lit "message",
                      VObj [(lit "role", VStr (lit "assistant"));
                            (lit "content", parts)])]])].

Definition parts_answer : Response :=
  {| ok := true;
     response_text := lit "(payload)";
     response_json := Some parts_payload |}.

Definition upstream_parts (_ : FetchRequest) : exn + Response :=
  inr parts_answer.

(** A success status with an error payload: there are no choices. *)
Definition overloaded_answer : Response :=
  {| ok := true;
     response_text := lit "(payload)";
     response_json :=
       Some (VObj [(lit "error",
                    VObj [(lit "message",
                           VStr (lit "model overloaded"))])]) |}.

Definition upstream_overloaded (_ : FetchRequest) : exn + Response :=
  inr overloaded_answer.

End Samples.

(* ================================================================== *)
(** * Facts about the ECMAScript fragment *)
(* ================================================================== *)

Module JSFacts.
Import JS.

Lemma str_eqb_eq (a b : jsstring) : str_eqb a b = true <-> a = b.
Proof.
  revert b; induction a as [|x a IH]; intros [|y b]; simpl;
    try (split; [discriminate | discriminate]); try tauto.
  rewrite andb_true_iff, N.eqb_eq, IH.
  split; [intros [-> ->]; reflexivity | intros H; inversion H; auto].
Qed.

Lemma str_eqb_refl (a : jsstring) : str_eqb a a = true.
Proof. apply str_eqb_eq; reflexivity. Qed.

Lemma startsWith_spec (s p : jsstring) :
  startsWith s p = true <-> exists t, s = p ++ t.
Proof.
  revert s; induction p as [|y p IH]; intros s; simpl.
  - split; [exists s; reflexivity | reflexivity].
  - destruct s as [|x s].
    + split; [discriminate | intros [t H]; discriminate].
    + rewrite andb_true_iff, N.eqb_eq, IH. split.
      * intros [-> [t ->]]. exists t; reflexivity.
      * intros [t H]. inversion H; subst. split; [reflexivity | exists t; reflexivity].
Qed.

Lemma includes_spec (s p : jsstring) :
  includes s p = true <-> exists a b, s = a ++ p ++ b.
Proof.
  induction s as [|x s IH].
  - simpl. rewrite orb_false_r, startsWith_spec. split.
    + intros [t H]. exists [], t. exact H.
    + intros [a [b H]]. destruct a; [exists b; exact H | discriminate].
  - cbn [includes]. rewrite orb_true_iff, startsWith_spec, IH. split.
    + intros [[t H] | [a [b H]]].
      * exists [], t. exact H.
      * exists (x :: a), b. rewrite H. reflexivity.
    + intros [[|y a] [b H]].
      * left. exists b. exact H.
      * right. inversion H; subst. exists a, b. reflexivity.
Qed.

Lemma includes_rev (s p : jsstring) :
  includes (rev s) (rev p) = includes s p.
Proof.
  apply eq_true_iff_eq. rewrite !includes_spec. split.
  - intros [a [b H]]. exists (rev b), (rev a).
    apply (f_equal (@rev _)) in H.
    rewrite rev_involutive, !rev_app_distr, rev_involutive in H.
    rewrite H, app_assoc. reflexivity.
  - intros [a [b H]]. exists (rev b), (rev a).
    rewrite H, !rev_app_distr, app_assoc. reflexivity.
Qed.

(** A pattern that starts with a code unit [trim] keeps is found in the
    string exactly when it is found after [trimStart]. *)
Lemma includes_trimStart (s : jsstring) (c : code_unit) (p : jsstring) :
  isWhiteSpace c = false ->
  includes (trimStart s) (c :: p) = includes s (c :: p).
Proof.
  intros Hc. induction s as [|x s IH]; [reflexivity|].
  cbn [trimStart]. destruct (isWhiteSpace x) eqn:Hx; [|reflexivity].
  rewrite IH. cbn [includes startsWith].
  destruct (N.eqb_spec x c) as [->|_]; [congruence | reflexivity].
Qed.

(** A pattern that neither starts nor ends with white space is found in
    the trimmed string exactly when it is found in the string. *)
Lemma includes_trim (s p : jsstring) (c d : code_unit) (p' q : jsstring) :
  p = c :: p' -> rev p = d :: q ->
  isWhiteSpace c = false -> isWhiteSpace d = false ->
  includes (trim s) p = includes s p.
Proof.
  intros Hp Hr Hc Hd. unfold trim, trimEnd.
  rewrite <- includes_rev, rev_involutive, Hr, includes_trimStart by exact Hd.
  rewrite <- Hr, includes_rev, Hp.
  apply includes_trimStart; exact Hc.
Qed.

Lemma split_nonempty (s : jsstring) (sep : code_unit) : split s sep <> [].
Proof.
  destruct s as [|c s]; simpl; [discriminate|].
  destruct (N.eqb c sep); [discriminate|].
  destruct (split s sep); discriminate.
Qed.

(** The number of pieces is one more than the number of separators. *)
Lemma split_length (s : jsstring) (sep : code_unit) :
  length (split s sep) = S (count_occ N.eq_dec s sep).
Proof.
  induction s as [|c s IH]; [reflexivity|].
  cbn [split count_occ].
  destruct (N.eqb_spec c sep) as [->|Hne].
  - destruct (N.eq_dec sep sep); [|congruence]. simpl. rewrite IH. reflexivity.
  - destruct (N.eq_dec c sep); [congruence|].
    destruct (split s sep) eqn:E; [exfalso; eapply split_nonempty; eauto|].
    exact IH.
Qed.

(** [l.slice(0, n)] is the prefix of at most [n] elements. *)
Lemma slice_prefix {A} (l : list A) (n : nat) :
  slice l 0 (Z.of_nat n) = firstn n l.
Proof.
  unfold slice, rel_index.
  destruct (0 <? 0)%Z eqn:E0; [discriminate|].
  destruct (Z.of_nat n <? 0)%Z eqn:E1; [apply Z.ltb_lt in E1; lia|].
  replace (Z.to_nat (Z.min 0 (Z.of_nat (length l)))) with 0%nat by lia.
  cbn [skipn].
  replace (Z.to_nat (Z.min (Z.of_nat n) (Z.of_nat (length l))
                     - Z.min 0 (Z.of_nat (length l))))
    with (Nat.min n (length l)) by lia.
  destruct (Nat.le_ge_cases n (length l)) as [H|H].
  - rewrite Nat.min_l by exact H. reflexivity.
  - rewrite Nat.min_r by exact H.
    rewrite firstn_all, firstn_all2 by exact H. reflexivity.
Qed.

(** [l.slice(-n)] is the suffix of at most [n] elements. *)
Lemma slice_from_suffix {A} (l : list A) (n : nat) :
  (0 < n)%nat ->
  slice_from l (- Z.of_nat n) = skipn (length l - n) l.
Proof.
  intros Hn. unfold slice_from, slice, rel_index.
  destruct (- Z.of_nat n <? 0)%Z eqn:E0; [|apply Z.ltb_ge in E0; lia].
  destruct (Z.of_nat (length l) <? 0)%Z eqn:E1; [apply Z.ltb_lt in E1; lia|].
  replace (Z.to_nat (Z.max (Z.of_nat (length l) + - Z.of_nat n) 0))
    with (length l - n)%nat by lia.
  apply firstn_all2. rewrite length_skipn. lia.
Qed.

End JSFacts.

(* ================================================================== *)
(** * The classifier *)
(* ================================================================== *)

Module ClassifierSpec.
Import JS ApiChat JSFacts.

Section Rules.

Variable toLowerCase : jsstring -> jsstring.

Lemma isGreeting_spec (text : jsstring) :
  isGreeting text = true <->
  exists p, In p simplePatterns /\
            (text = p \/ startsWith text (p ++ lit " ") = true).
Proof.
  unfold isGreeting. rewrite existsb_exists.
  split; intros [p [Hin H]]; exists p; split; try exact Hin.
  - apply orb_true_iff in H. rewrite str_eqb_eq in H. exact H.
  - apply orb_true_iff. rewrite str_eqb_eq. exact H.
Qed.

(** The word count is the number of spaces plus one. *)
Lemma wordCount_spaces (message : jsstring) :
  wordCount message = S (count_occ N.eq_dec message SPACE).
Proof. apply split_length. Qed.

Lemma not_simple_tier (message : jsstring) (history : list value) :
  isGreeting (normalize toLowerCase message) = false ->
  (4 < wordCount message)%nat ->
  detectComplexity toLowerCase message history =
    if isComplex (normalize toLowerCase message) (wordCount message)
       || (8 <? length history)%nat
    then complex else medium.
Proof.
  intros Hg Hw. unfold ApiChat.detectComplexity.
  rewrite Hg. cbn [orb].
  destruct (Nat.leb_spec (wordCount message) 4); [lia | reflexivity].
Qed.

(** C2.  Whatever the history, a message is classified [simple] as soon as
    its lower-cased, trimmed text is one of the greeting tokens, or starts
    with one of them followed by a space, or the message splits on single
    spaces into at most 4 pieces (the number of spaces plus one, so empty
    pieces count).  Nothing else is looked at: complex keywords and the
    history length play no part. *)
Theorem simple_rule_comes_first (message : jsstring) (history : list value) :
  wordCount message = S (count_occ N.eq_dec message SPACE) /\
  ((exists p, In p simplePatterns /\
      (normalize toLowerCase message = p \/
       startsWith (normalize toLowerCase message) (p ++ lit " ") = true))
   \/ (wordCount message <= 4)%nat ->
   detectComplexity toLowerCase message history = simple).
Proof.
  split; [apply wordCount_spaces|].
  intros H. unfold ApiChat.detectComplexity.
  destruct H as [H | H].
  - apply isGreeting_spec in H. rewrite H. reflexivity.
  - apply Nat.leb_le in H. rewrite H, orb_true_r. reflexivity.
Qed.

(** C3, amended.  A message whose lower-cased text contains [gdpr], whose
    word count is greater than 4 and which is not a greeting is classified
    [complex], whatever the history. *)
Theorem gdpr_is_complex (message : jsstring) (history : list value) :
  includes (toLowerCase message) (lit "gdpr") = true ->
  (4 < wordCount message)%nat ->
  isGreeting (normalize toLowerCase message) = false ->
  detectComplexity toLowerCase message history = complex.
Proof.
  intros Hgdpr Hw Hg. rewrite not_simple_tier by assumption.
  assert (Hc : isComplex (normalize toLowerCase message) (wordCount message)
               = true).
  { unfold isComplex. apply orb_true_iff; left.
    apply existsb_exists. exists (lit "gdpr"). split.
    - unfold complexPatterns. apply in_map. simpl. tauto.
    - unfold ApiChat.normalize.
      rewrite (@includes_trim _ (lit "gdpr") 103%N 114%N
                 (lit "dpr") (lit "pdg")) by reflexivity.
      exact Hgdpr. }
  rewrite Hc. reflexivity.
Qed.

(** C7.  A message that is no greeting, has between 5 and 25 words and
    contains no complex keyword is classified [complex] with a history of
    more than 8 turns, and [medium] with a history of at most 8. *)
Theorem long_history_overrides_medium
    (message : jsstring) (history : list value) :
  isGreeting (normalize toLowerCase message) = false ->
  (5 <= wordCount message <= 25)%nat ->
  (forall p, In p complexPatterns ->
             includes (normalize toLowerCase message) p = false) ->
  (8 < length history)%nat ->
  detectComplexity toLowerCase message history = complex /\
  (forall shorter : list value,
      (length shorter <= 8)%nat ->
      detectComplexity toLowerCase message shorter = medium).
Proof.
  intros Hg Hw Hk Hh.
  assert (Hc : isComplex (normalize toLowerCase message) (wordCount message)
               = false).
  { unfold isComplex. apply orb_false_iff. split.
    - destruct (existsb _ complexPatterns) eqn:E; [|reflexivity].
      apply existsb_exists in E. destruct E as [p [Hin Hp]].
      rewrite (Hk p Hin) in Hp. discriminate.
    - apply Nat.ltb_ge. lia. }
  split.
  - rewrite not_simple_tier by (assumption || lia).
    apply Nat.ltb_lt in Hh. rewrite Hh, orb_true_r. reflexivity.
  - intros shorter Hs.
    rewrite not_simple_tier by (assumption || lia).
    apply Nat.ltb_ge in Hs. rewrite Hc, Hs. reflexivity.
Qed.

(** C9.  The classifier of [src/api/chat.js] and the one of
    [src/unnamed/part_000] return the same tier on every message and
    history. *)
Theorem classifiers_agree (message : jsstring) (history : list value) :
  ApiChat.detectComplexity toLowerCase message history =
  Part000.detectComplexity toLowerCase message history.
Proof.
  unfold ApiChat.detectComplexity, Part000.detectComplexity.
  unfold normalize, wordCount, isGreeting, isComplex.
  change Part000.simplePatterns with simplePatterns.
  change Part000.complexPatterns with complexPatterns.
  destruct (existsb _ simplePatterns || _); reflexivity.
Qed.

End Rules.

(** C2 at a greeting of twelve words full of complex keywords, after ten
    turns. *)
Lemma simple_rule_comes_first_witness :
  detectComplexity Samples.lower Samples.greeting_with_keywords
    Samples.ten_turns = simple.
Proof.
  apply (proj2 (simple_rule_comes_first Samples.lower
                  Samples.greeting_with_keywords Samples.ten_turns)).
  left. exists (lit "hi"). split.
  - unfold simplePatterns. apply in_map. simpl. tauto.
  - right. vm_compute. reflexivity.
Defined.

(** C3 as stated fails: a greeting of seven words that contains GDPR is
    classified [simple]. *)
Lemma gdpr_greeting_is_simple :
  includes (Samples.lower Samples.gdpr_greeting) (lit "gdpr") = true /\
  (4 < wordCount Samples.gdpr_greeting)%nat /\
  detectComplexity Samples.lower Samples.gdpr_greeting [] = simple.
Proof. vm_compute. repeat split; lia. Qed.

Lemma gdpr_is_complex_witness :
  detectComplexity Samples.lower Samples.gdpr_question [] = complex.
Proof.
  apply gdpr_is_complex.
  - vm_compute. reflexivity.
  - vm_compute. lia.
  - vm_compute. reflexivity.
Defined.

Lemma long_history_overrides_medium_witness :
  detectComplexity Samples.lower Samples.neutral_message Samples.ten_turns
    = complex /\
  (forall shorter : list value,
      (length shorter <= 8)%nat ->
      detectComplexity Samples.lower Samples.neutral_message shorter
        = medium).
Proof.
  apply long_history_overrides_medium.
  - vm_compute. reflexivity.
  - vm_compute. lia.
  - intros p Hp. unfold complexPatterns in Hp. simpl in Hp.
    repeat (destruct Hp as [<- | Hp]; [vm_compute; reflexivity|]).
    destruct Hp.
  - vm_compute. lia.
Defined.

End ClassifierSpec.

(* ================================================================== *)
(** * The request handler *)
(* ================================================================== *)

Module HandlerSpec.
Import JS Eff ApiChat JSFacts.

Section Invocation.

Variable toLowerCase : jsstring -> jsstring.
Variable OPENROUTER_API_KEY : option jsstring.
Variable upstream : FetchRequest -> exn + Response.

(** ** The [try] block *)

Lemma exchange_calls (model : jsstring) (c : Tier)
    (turns : list ChatMessage) (s : jsstring) :
  calls (fst (run upstream (exchange OPENROUTER_API_KEY model c turns s)))
  = [upstreamRequest OPENROUTER_API_KEY model turns s].
Proof.
  unfold exchange, fetch. cbn [try_catch bind run].
  destruct (upstream _) as [e | resp]; cbn [lift bind try_catch run fst calls];
    [reflexivity|].
  destruct (ok resp); cbn [negb bind try_catch run fst calls lift];
    [|reflexivity].
  destruct (response_json resp) as [data|];
    cbn [bind try_catch run fst calls lift]; [|reflexivity].
  destruct (replyOf data) as [e | reply];
    cbn [bind try_catch run fst calls lift]; [reflexivity|].
  destruct (ToBoolean reply); cbn [negb respond bind try_catch run fst calls];
    reflexivity.
Qed.

Lemma exchange_result (model : jsstring) (c : Tier)
    (turns : list ChatMessage) (s : jsstring) :
  let r := upstreamRequest OPENROUTER_API_KEY model turns s in
  let x := snd (run upstream (exchange OPENROUTER_API_KEY model c turns s)) in
  (x = inr generic_failure /\
   forall resp, upstream r = inr resp -> ok resp = true ->
                forall reply, ~ extractable resp reply)
  \/
  (exists resp reply,
      upstream r = inr resp /\ ok resp = true /\ extractable resp reply /\
      x = inr {| status := 200;
                 json := VObj [(lit "reply", reply);
                               (lit "model", VStr model);
                               (lit "complexity", VStr (tier_name c))] |}).
Proof.
  intros r x. subst x. unfold exchange, fetch. cbn [try_catch bind run].
  fold r. destruct (upstream r) as [e | resp];
    cbn [lift bind try_catch run snd respond].
  { left. split; [reflexivity | discriminate]. }
  destruct (ok resp) eqn:Eok; cbn [negb bind try_catch run snd lift respond].
  2:{ left. split; [reflexivity|]. intros resp' H. inversion H; subst.
      congruence. }
  destruct (response_json resp) as [data|] eqn:Ej;
    cbn [bind try_catch run snd lift respond].
  2:{ left. split; [reflexivity|]. intros resp' H _ reply [d [Hd _]].
      inversion H; subst. congruence. }
  destruct (replyOf data) as [e | reply] eqn:Er;
    cbn [bind try_catch run snd lift respond].
  { left. split; [reflexivity|]. intros resp' H _ reply [d [Hd [Hr _]]].
    inversion H; subst. congruence. }
  destruct (ToBoolean reply) eqn:Et;
    cbn [negb bind try_catch run snd lift respond].
  - right. exists resp, reply. repeat split; try assumption.
    exists data. auto.
  - left. split; [reflexivity|]. intros resp' H _ reply' [d [Hd [Hr Ht]]].
    inversion H; subst. congruence.
Qed.

(** ** The checks before it *)

Lemma handler_accepted (req : Request) (m : jsstring) (hist : list value)
    (turns : list ChatMessage) :
  accepted OPENROUTER_API_KEY req m hist turns ->
  let sanitized := slice m 0 500 in
  let complexity := detectComplexity toLowerCase sanitized hist in
  handler toLowerCase OPENROUTER_API_KEY req =
  exchange OPENROUTER_API_KEY (MODELS complexity) complexity turns sanitized.
Proof.
  intros (Hm & Hk & Hd & Hne & Hc). unfold handler.
  rewrite Hm, str_eqb_refl, Hk, Hd. cbn [negb lift bind].
  destruct m as [|c m]; [congruence|].
  cbn [ToBoolean typeof_string negb orb]. unfold proceed.
  cbn [sanitize as_array lift bind]. rewrite Hc. reflexivity.
Qed.

Lemma handler_cases (req : Request) :
  (exists m hist turns, accepted OPENROUTER_API_KEY req m hist turns) \/
  (fst (run upstream (handler toLowerCase OPENROUTER_API_KEY req)) = [] /\
   forall res,
     snd (run upstream (handler toLowerCase OPENROUTER_API_KEY req)) = inr res ->
     res = method_not_allowed \/ res = key_not_configured \/
     res = invalid_message).
Proof.
  unfold handler.
  destruct (str_eqb (method req) (lit "POST")) eqn:Em; cbn [negb].
  2:{ right. split; [reflexivity|]. cbn. intros res H. inversion H. auto. }
  apply str_eqb_eq in Em.
  destruct (ToBoolean (env_value OPENROUTER_API_KEY)) eqn:Ek; cbn [negb].
  2:{ right. split; [reflexivity|]. cbn. intros res H. inversion H. auto. }
  destruct (destructure (body req)) as [e | [message history]] eqn:Ed;
    cbn [lift bind].
  { right. split; [reflexivity|]. cbn. discriminate. }
  assert (Hbad : fst (run upstream (respond 400 (error_body "Invalid message")))
                 = [] /\
                 forall res,
                   snd (run upstream (respond 400 (error_body "Invalid message")))
                   = inr res ->
                   res = method_not_allowed \/ res = key_not_configured \/
                   res = invalid_message).
  { split; [reflexivity|]. cbn. intros res H. inversion H. auto. }
  destruct message as [| |b|x|m|elems|props];
    cbn [ToBoolean typeof_string negb orb]; try (right; exact Hbad);
    try (rewrite orb_true_r; right; exact Hbad).
  destruct m as [|c m]; cbn [negb orb]; [right; exact Hbad|].
  unfold proceed. cbn [sanitize lift bind].
  destruct history as [| |b|x|s|hist|props]; cbn [as_array lift bind];
    try (right; split; [reflexivity | cbn; discriminate]).
  destruct (chatHistory hist) as [e | turns] eqn:Ec; cbn [lift bind].
  { right. split; [reflexivity | cbn; discriminate]. }
  left. exists (c :: m), hist, turns. repeat split; try assumption.
  discriminate.
Qed.

(** ** What is sent upstream *)

Lemma Array_map_Forall2 {A B} (f : A -> exn + B) (l : list A) (l' : list B) :
  Array_map f l = inr l' -> Forall2 (fun a b => f a = inr b) l l'.
Proof.
  revert l'; induction l as [|a l IH]; intros l' H; cbn in H.
  - inversion H. constructor.
  - destruct (f a) as [e | b] eqn:Ea; cbn in H; [discriminate|].
    destruct (Array_map f l) as [e | bs]; cbn in H; [discriminate|].
    inversion H; subst. constructor; auto.
Qed.

Lemma strict_eq_str_spec (v : value) (s : jsstring) :
  strict_eq_str v s = true <-> v = VStr s.
Proof.
  destruct v; cbn; try (split; [discriminate | discriminate]).
  rewrite str_eqb_eq. split; [intros ->; reflexivity | intros H; inversion H; auto].
Qed.

Lemma chatTurn_forwarded (turn : value) (sent : ChatMessage) :
  chatTurn turn = inr sent -> forwarded turn sent.
Proof.
  unfold chatTurn. intros H.
  destruct (get turn (lit "sender")) as [e | sender] eqn:Es;
    cbn [ebind] in H; [discriminate|].
  destruct (get turn (lit "text")) as [e | text] eqn:Et;
    cbn [ebind] in H; [discriminate|].
  inversion H; subst; clear H. exists sender, text. cbn [role content].
  split; [exact Es|]. split; [exact Et|].
  split; [|split; [|reflexivity]].
  - intros Hs. apply strict_eq_str_spec in Hs. rewrite Hs. reflexivity.
  - intros Hs. destruct (strict_eq_str sender (lit "user")) eqn:E;
      [apply strict_eq_str_spec in E; contradiction | reflexivity].
Qed.

Lemma chatHistory_forwarded (hist : list value) (turns : list ChatMessage) :
  chatHistory hist = inr turns ->
  Forall2 forwarded (skipn (length hist - 6) hist) turns.
Proof.
  unfold chatHistory. intros H. apply Array_map_Forall2 in H.
  change (-6)%Z with (- Z.of_nat 6)%Z in H.
  rewrite slice_from_suffix in H by lia.
  eapply Forall2_impl; [|exact H]. apply chatTurn_forwarded.
Qed.

Lemma destructure_message (body message history : value) :
  destructure body = inr (message, history) ->
  get body (lit "message") = inr message.
Proof.
  unfold destructure.
  destruct (get body (lit "message")) as [e | m]; cbn [ebind];
    [discriminate|].
  destruct (get body (lit "history")) as [e | h]; cbn [ebind];
    [discriminate|].
  intros H; inversion H; reflexivity.
Qed.

Lemma get_message_destructure (body message : value) :
  get body (lit "message") = inr message ->
  exists history, destructure body = inr (message, history).
Proof.
  unfold destructure. intros H. rewrite H. cbn.
  destruct body; cbn in *; try discriminate; eauto.
Qed.

(** Every call the handler makes is the one built from an accepted
    request. *)
Lemma call_inversion (req : Request) (r : FetchRequest) :
  In r (calls (fst (run upstream
                      (handler toLowerCase OPENROUTER_API_KEY req)))) ->
  exists m hist turns,
    accepted OPENROUTER_API_KEY req m hist turns /\
    r = upstreamRequest OPENROUTER_API_KEY
          (MODELS (detectComplexity toLowerCase (slice m 0 500) hist))
          turns (slice m 0 500).
Proof.
  intros Hin. destruct (handler_cases req) as [(m & hist & turns & Hacc) | [Hno _]].
  - exists m, hist, turns. split; [exact Hacc|].
    rewrite (handler_accepted _ _ _ _ Hacc), exchange_calls in Hin.
    destruct Hin as [<- | []]. reflexivity.
  - rewrite Hno in Hin. destruct Hin.
Qed.

(** C1.  Whenever the handler calls upstream, the request was a POST whose
    body carries a string [message] and an array [history] (empty when
    absent), and the messages sent are: one [system] message with the
    persona prompt; then the last 6 elements of [history] (all of them when
    there are fewer), in order, each with role [user] when its sender is
    'user' and [assistant] otherwise; then one [user] message with the
    first 500 code units of [message]. *)
Theorem upstream_message_sequence (req : Request) (r : FetchRequest) :
  In r (calls (fst (run upstream
                      (handler toLowerCase OPENROUTER_API_KEY req)))) ->
  exists (m : jsstring) (hist : list value) (turns : list ChatMessage),
    method req = lit "POST" /\
    destructure (body req) = inr (VStr m, VArr hist) /\
    messages (fetch_body r) =
      {| role := system; content := VStr SYSTEM_PROMPT |}
      :: turns ++ [{| role := user; content := VStr (firstn 500 m) |}] /\
    Forall2 forwarded (skipn (length hist - 6) hist) turns.
Proof.
  intros Hin.
  destruct (call_inversion _ _ Hin) as (m & hist & turns & Hacc & ->).
  destruct Hacc as (Hm & _ & Hd & _ & Hc).
  exists m, hist, turns. repeat split; try assumption.
  - cbn [upstreamRequest fetch_body messages app].
    change 500%Z with (Z.of_nat 500). rewrite slice_prefix. reflexivity.
  - apply chatHistory_forwarded. exact Hc.
Qed.

(** C6.  Whenever the handler calls upstream, the last message sent has
    role [user] and its content is a prefix of the request's [message], of
    500 code units or of the whole message when that is shorter; for a
    message of 600 code units it is exactly the first 500. *)
Theorem upstream_user_message_is_prefix (req : Request) (r : FetchRequest) :
  In r (calls (fst (run upstream
                      (handler toLowerCase OPENROUTER_API_KEY req)))) ->
  exists (m sent rest : jsstring),
    get (body req) (lit "message") = inr (VStr m) /\
    last (messages (fetch_body r)) {| role := system; content := VNull |}
      = {| role := user; content := VStr sent |} /\
    m = sent ++ rest /\
    length sent = Nat.min 500 (length m) /\
    (length m = 600 -> sent = firstn 500 m /\ length sent = 500).
Proof.
  intros Hin.
  destruct (call_inversion _ _ Hin) as (m & hist & turns & Hacc & ->).
  destruct Hacc as (_ & _ & Hd & _ & _).
  exists m, (firstn 500 m), (skipn 500 m). repeat split.
  - eapply destructure_message; exact Hd.
  - cbn [upstreamRequest fetch_body messages app].
    change 500%Z with (Z.of_nat 500). rewrite slice_prefix.
    rewrite app_comm_cons. apply last_last.
  - symmetry. apply firstn_skipn.
  - apply length_firstn.
  - rewrite length_firstn. lia.
Qed.

(** The handler's reading of the payload finds what the payload holds at
    [choices[0].message.content]; it throws only where that is
    [undefined]. *)
Lemma replyOf_payload_content (data : value) :
  match replyOf data with
  | inr reply => reply = payload_content data
  | inl _ => payload_content data = VUndefined
  end.
Proof.
  unfold replyOf, payload_content.
  destruct data as [| |b|x|s|elems|props]; try reflexivity.
  cbn [get ebind member].
  destruct (lookup props (lit "choices")) as [| |b|x|s|elems|ps];
    try reflexivity; cbn [nullish].
  - destruct s as [|c s]; reflexivity.
  - destruct elems as [|first elems]; [reflexivity|]. cbn [get0].
    destruct first as [| |b|x|s|es|ps]; try reflexivity.
    cbn [nullish get ebind member].
    destruct (lookup ps (lit "message")) as [| |b|x|s|es|qs];
      reflexivity.
  - cbn [get0].
    destruct (lookup ps (lit "0")) as [| |b|x|s|es|qs]; try reflexivity.
    cbn [nullish get ebind member].
    destruct (lookup qs (lit "message")) as [| |b|x|s|es|rs];
      reflexivity.
Qed.

Lemma extractable_payload_content (resp : Response) (reply : value) :
  extractable resp reply <->
  exists data,
    response_json resp = Some data /\
    reply = payload_content data /\
    ToBoolean (payload_content data) = true.
Proof.
  split.
  - intros (data & Hj & Hr & Ht). exists data.
    pose proof (replyOf_payload_content data) as H. rewrite Hr in H.
    subst reply. auto.
  - intros (data & Hj & -> & Ht). exists data.
    pose proof (replyOf_payload_content data) as H.
    destruct (replyOf data) as [e | reply].
    + rewrite H in Ht. discriminate.
    + subst reply. auto.
Qed.

(** C4, amended.  Whenever the handler has called upstream and got an
    answer, it returns status 500 with the body
    [{error: "Something went wrong. Please try again."}] (a constant, in
    which nothing of the upstream answer occurs) exactly when the answer
    has a non-success status, or a success status with a payload that is
    not JSON or that holds nothing truthy at [choices[0].message.content].
    Any truthy value there, text or not, is returned as [reply] with
    status 200. *)
Theorem upstream_failure_is_generic
    (req : Request) (r : FetchRequest) (resp : Response) :
  In r (calls (fst (run upstream
                      (handler toLowerCase OPENROUTER_API_KEY req)))) ->
  upstream r = inr resp ->
  (snd (run upstream (handler toLowerCase OPENROUTER_API_KEY req))
   = inr generic_failure
   <-> ok resp = false \/ no_reply resp) /\
  (forall data : value,
      ok resp = true ->
      response_json resp = Some data ->
      ToBoolean (payload_content data) = true ->
      exists res : HttpResult,
        snd (run upstream (handler toLowerCase OPENROUTER_API_KEY req))
        = inr res /\
        status res = 200%Z /\
        get (json res) (lit "reply") = inr (payload_content data)).
Proof.
  intros Hin Hup.
  destruct (call_inversion _ _ Hin) as (m & hist & turns & Hacc & ->).
  rewrite (handler_accepted _ _ _ _ Hacc). cbv zeta.
  destruct (exchange_result
              (MODELS (detectComplexity toLowerCase (slice m 0 500) hist))
              (detectComplexity toLowerCase (slice m 0 500) hist)
              turns (slice m 0 500))
    as [[Hx Hnone] | (resp' & reply & Hup' & Hok & Hex & Hx)];
    cbv zeta in *.
  - assert (Hno : forall data, ok resp = true ->
                    response_json resp = Some data ->
                    ToBoolean (payload_content data) = true -> False).
    { intros data Hok Hj Ht.
      apply (Hnone resp Hup Hok (payload_content data)).
      apply extractable_payload_content. exists data. auto. }
    split.
    + split; [intros _ | intros _; exact Hx]. unfold no_reply.
      destruct (ok resp) eqn:Hok; [right | left; reflexivity].
      destruct (response_json resp) as [data|] eqn:Hj;
        [|left; reflexivity].
      right. exists data. split; [reflexivity|].
      destruct (ToBoolean (payload_content data)) eqn:Ht; [|reflexivity].
      destruct (Hno data eq_refl eq_refl Ht).
    + intros data Hok Hj Ht. destruct (Hno data Hok Hj Ht).
  - rewrite Hup in Hup'. inversion Hup'; subst resp'.
    apply extractable_payload_content in Hex.
    destruct Hex as (data & Hj & -> & Ht).
    split.
    + rewrite Hx. split; [discriminate|].
      intros [Hf | [Hn | (data' & Hj' & Hf)]]; congruence.
    + intros data' Hok' Hj' Ht'.
      rewrite Hj in Hj'. inversion Hj'; subst data'.
      eexists. split; [exact Hx|]. split; reflexivity.
Qed.

(** C5.  A request whose method is not POST gets status 405 with
    [{error: "Method not allowed"}], whatever the credential and the body;
    a POST gets status 500 with [{error: "API key not configured"}] when
    the credential is absent (or empty), whatever the body.  In both cases
    nothing is sent upstream and nothing is logged. *)
Theorem failure_checks_in_order :
  (forall req : Request,
      method req <> lit "POST" ->
      run upstream (handler toLowerCase OPENROUTER_API_KEY req)
      = ([], inr method_not_allowed)) /\
  (forall req : Request,
      method req = lit "POST" ->
      ToBoolean (env_value OPENROUTER_API_KEY) = false ->
      run upstream (handler toLowerCase OPENROUTER_API_KEY req)
      = ([], inr key_not_configured)).
Proof.
  split; intros req Hm; unfold handler.
  - destruct (str_eqb (method req) (lit "POST")) eqn:E.
    + apply str_eqb_eq in E. contradiction.
    + reflexivity.
  - intros Hk. rewrite Hm, str_eqb_refl, Hk. reflexivity.
Qed.

(** C8, amended.  For a POST with the credential present and a body that
    is neither [null] nor [undefined], the handler returns status 400 with
    [{error: "Invalid message"}] exactly when [message] is absent, is not
    a string, or is the empty string (and it then does so at once, without
    any call or log); for every non-empty string the handler goes on with
    the steps after validation, none of which answers 400. *)
Theorem invalid_message_iff (req : Request) (message : value) :
  method req = lit "POST" ->
  ToBoolean (env_value OPENROUTER_API_KEY) = true ->
  get (body req) (lit "message") = inr message ->
  (snd (run upstream (handler toLowerCase OPENROUTER_API_KEY req))
   = inr invalid_message
   <-> ~ (exists m, message = VStr m /\ m <> [])) /\
  ((exists res : HttpResult,
       snd (run upstream (handler toLowerCase OPENROUTER_API_KEY req))
       = inr res /\
       status res = 400%Z)
   <-> ~ (exists m, message = VStr m /\ m <> [])) /\
  (~ (exists m, message = VStr m /\ m <> []) ->
   run upstream (handler toLowerCase OPENROUTER_API_KEY req)
   = ([], inr invalid_message)) /\
  (forall m, message = VStr m -> m <> [] ->
     exists history,
       destructure (body req) = inr (message, history) /\
       handler toLowerCase OPENROUTER_API_KEY req
       = proceed toLowerCase OPENROUTER_API_KEY message history).
Proof.
  intros Hm Hk Hg.
  destruct (get_message_destructure _ _ Hg) as [history Hd].
  assert (Hgo : forall m, message = VStr m -> m <> [] ->
                handler toLowerCase OPENROUTER_API_KEY req
                = proceed toLowerCase OPENROUTER_API_KEY message history).
  { intros m -> Hne. unfold handler.
    rewrite Hm, str_eqb_refl, Hk, Hd. cbn [negb lift bind].
    destruct m; [congruence | reflexivity]. }
  assert (Hvalid : forall m, message = VStr m -> m <> [] ->
                   forall res,
                     snd (run upstream
                            (handler toLowerCase OPENROUTER_API_KEY req))
                     = inr res ->
                     status res = 500%Z \/ status res = 200%Z).
  { intros m E Hne res. rewrite (Hgo m E Hne). subst message.
    unfold proceed. cbn [sanitize lift bind].
    destruct history; cbn [as_array lift bind run snd]; try discriminate.
    destruct (chatHistory elems) as [e | turns];
      cbn [lift bind run snd]; [discriminate|].
    destruct (exchange_result
                (MODELS (detectComplexity toLowerCase (slice m 0 500) elems))
                (detectComplexity toLowerCase (slice m 0 500) elems)
                turns (slice m 0 500))
      as [[Hx _] | (resp & reply & _ & _ & _ & Hx)];
      cbv zeta in Hx; rewrite Hx; intros H; inversion H; subst res; auto. }
  assert (Hbad : ~ (exists m, message = VStr m /\ m <> []) ->
                 run upstream (handler toLowerCase OPENROUTER_API_KEY req)
                 = ([], inr invalid_message)).
  { intros Hnot. unfold handler.
    rewrite Hm, str_eqb_refl, Hk, Hd. cbn [negb lift bind].
    destruct message as [| |b|x|m|elems|props];
      cbn [ToBoolean typeof_string negb orb];
      try reflexivity; try (rewrite orb_true_r; reflexivity).
    destruct m as [|c m]; [reflexivity|].
    exfalso. apply Hnot. exists (c :: m).
    split; [reflexivity | discriminate]. }
  split; [|split; [|split]].
  - split.
    + intros Hrun (m & E & Hne).
      destruct (Hvalid m E Hne _ Hrun) as [H | H]; discriminate H.
    + intros Hnot. rewrite (Hbad Hnot). reflexivity.
  - split.
    + intros (res & Hrun & H400) (m & E & Hne).
      destruct (Hvalid m E Hne _ Hrun) as [H | H]; congruence.
    + intros Hnot. exists invalid_message.
      rewrite (Hbad Hnot). split; reflexivity.
  - exact Hbad.
  - intros m E Hne. exists history. split; [exact Hd | eauto].
Qed.

(** C10.  The table [MODELS] gives 'x-ai/grok-4.1-fast' for each of the
    three tiers; so whenever the handler answers with status 200, the
    [model] field of the answer is 'x-ai/grok-4.1-fast', and so is the
    model of the one call it made upstream, whatever the tier. *)
Theorem one_model_for_every_tier :
  (forall t : Tier, MODELS t = lit "x-ai/grok-4.1-fast") /\
  (forall (req : Request) (res : HttpResult),
      snd (run upstream (handler toLowerCase OPENROUTER_API_KEY req))
      = inr res ->
      status res = 200%Z ->
      get (json res) (lit "model") = inr (VStr (lit "x-ai/grok-4.1-fast")) /\
      exists r,
        calls (fst (run upstream
                      (handler toLowerCase OPENROUTER_API_KEY req))) = [r] /\
        model (fetch_body r) = lit "x-ai/grok-4.1-fast").
Proof.
  assert (Hall : forall t : Tier, MODELS t = lit "x-ai/grok-4.1-fast")
    by (intros []; reflexivity).
  split; [exact Hall|]. intros req res Hres H200.
  destruct (handler_cases req) as [(m & hist & turns & Hacc) | [_ Hbad]].
  - rewrite (handler_accepted _ _ _ _ Hacc) in *. rewrite exchange_calls.
    destruct (exchange_result
                (MODELS (detectComplexity toLowerCase (slice m 0 500) hist))
                (detectComplexity toLowerCase (slice m 0 500) hist)
                turns (slice m 0 500))
      as [[Hx _] | (resp & reply & _ & _ & _ & Hx)];
      cbv zeta in Hx; rewrite Hres in Hx; inversion Hx; subst res.
    + discriminate.
    + split.
      * rewrite Hall. reflexivity.
      * eexists. split; [reflexivity|]. cbn [upstreamRequest fetch_body model].
        apply Hall.
  - destruct (Hbad res Hres) as [-> | [-> | ->]]; discriminate.
Qed.

End Invocation.

(** C1 at a request with ten prior turns: the six last ones are sent. *)
Lemma upstream_message_sequence_witness :
  exists (m : jsstring) (hist : list value) (turns : list ChatMessage),
    method Samples.request_ten_turns = lit "POST" /\
    destructure (body Samples.request_ten_turns)
      = inr (VStr m, VArr hist) /\
    messages (fetch_body Samples.call_ten_turns) =
      {| role := system; content := VStr SYSTEM_PROMPT |}
      :: turns ++ [{| role := user; content := VStr (firstn 500 m) |}] /\
    Forall2 forwarded (skipn (length hist - 6) hist) turns.
Proof.
  apply (upstream_message_sequence Samples.lower Samples.key
           Samples.upstream_replies Samples.request_ten_turns
           Samples.call_ten_turns).
  vm_compute. left. reflexivity.
Defined.

(** C6 at a message of 600 code units. *)
Lemma upstream_user_message_is_prefix_witness :
  exists (m sent rest : jsstring),
    get (body Samples.request_long_message) (lit "message")
      = inr (VStr m) /\
    last (messages (fetch_body Samples.call_long_message))
         {| role := system; content := VNull |}
      = {| role := user; content := VStr sent |} /\
    m = sent ++ rest /\
    length sent = Nat.min 500 (length m) /\
    (length m = 600 -> sent = firstn 500 m /\ length sent = 500).
Proof.
  apply (upstream_user_message_is_prefix Samples.lower Samples.key
           Samples.upstream_replies Samples.request_long_message
           Samples.call_long_message).
  vm_compute. left. reflexivity.
Defined.

(** C4 as stated fails: upstream succeeds with a content that is a list
    of parts, so no reply text can be extracted, and the handler answers
    200 with that list as [reply]. *)
Lemma non_text_content_is_echoed :
  ok Samples.parts_answer = true /\
  response_json Samples.parts_answer = Some Samples.parts_payload /\
  payload_content Samples.parts_payload = Samples.parts /\
  typeof_string Samples.parts = false /\
  snd (run Samples.upstream_parts
         (handler Samples.lower Samples.key Samples.request_ten_turns))
  = inr {| status := 200;
           json := VObj [(lit "reply", Samples.parts);
                         (lit "model", VStr (lit "x-ai/grok-4.1-fast"));
                         (lit "complexity", VStr (lit "complex"))] |}.
Proof. vm_compute. repeat split. Qed.

(** C4 at an error status, at a success status whose payload has no
    choices, and at a completion. *)
Lemma upstream_failure_is_generic_witness :
  snd (run Samples.upstream_fails
         (handler Samples.lower Samples.key Samples.request_ten_turns))
  = inr generic_failure /\
  snd (run Samples.upstream_overloaded
         (handler Samples.lower Samples.key Samples.request_ten_turns))
  = inr generic_failure /\
  exists res : HttpResult,
    snd (run Samples.upstream_replies
           (handler Samples.lower Samples.key Samples.request_ten_turns))
    = inr res /\
    status res = 200%Z /\
    get (json res) (lit "reply")
    = inr (payload_content (Samples.completion "Happy to help.")).
Proof.
  split; [|split].
  - apply (proj1 (upstream_failure_is_generic Samples.lower Samples.key
                    Samples.upstream_fails Samples.request_ten_turns
                    Samples.call_ten_turns Samples.rate_limited
                    ltac:(vm_compute; left; reflexivity) eq_refl)).
    left. reflexivity.
  - apply (proj1 (upstream_failure_is_generic Samples.lower Samples.key
                    Samples.upstream_overloaded Samples.request_ten_turns
                    Samples.call_ten_turns Samples.overloaded_answer
                    ltac:(vm_compute; left; reflexivity) eq_refl)).
    right. right. eexists. split; reflexivity.
  - apply (proj2 (upstream_failure_is_generic Samples.lower Samples.key
                    Samples.upstream_replies Samples.request_ten_turns
                    Samples.call_ten_turns Samples.happy_answer
                    ltac:(vm_compute; left; reflexivity) eq_refl)
             (Samples.completion "Happy to help."));
      reflexivity.
Defined.

(** C5 at a GET, and at a POST without a body when no key is set. *)
Lemma failure_checks_in_order_witness :
  run Samples.upstream_replies
      (handler Samples.lower Samples.key Samples.request_get)
  = ([], inr method_not_allowed) /\
  run Samples.upstream_replies
      (handler Samples.lower None Samples.request_no_body)
  = ([], inr key_not_configured).
Proof.
  split.
  - apply (proj1 (failure_checks_in_order Samples.lower Samples.key
                    Samples.upstream_replies)).
    vm_compute. discriminate.
  - apply (proj2 (failure_checks_in_order Samples.lower None
                    Samples.upstream_replies)); reflexivity.
Defined.

(** C8 as stated fails: the empty string is present and is a string, and
    the handler answers 400. *)
Lemma empty_message_is_invalid :
  get (body Samples.request_empty_message) (lit "message") = inr (VStr []) /\
  typeof_string (VStr []) = true /\
  run Samples.upstream_replies
      (handler Samples.lower Samples.key Samples.request_empty_message)
  = ([], inr invalid_message).
Proof. vm_compute. repeat split. Qed.

Lemma invalid_message_iff_witness :
  (snd (run Samples.upstream_fails
          (handler Samples.lower Samples.key Samples.request_ten_turns))
   = inr invalid_message
   <-> ~ (exists m, VStr Samples.neutral_message = VStr m /\ m <> [])) /\
  ((exists res : HttpResult,
       snd (run Samples.upstream_fails
              (handler Samples.lower Samples.key Samples.request_ten_turns))
       = inr res /\
       status res = 400%Z)
   <-> ~ (exists m, VStr Samples.neutral_message = VStr m /\ m <> [])) /\
  (~ (exists m, VStr Samples.neutral_message = VStr m /\ m <> []) ->
   run Samples.upstream_fails
       (handler Samples.lower Samples.key Samples.request_ten_turns)
   = ([], inr invalid_message)) /\
  (forall m, VStr Samples.neutral_message = VStr m -> m <> [] ->
     exists history,
       destructure (body Samples.request_ten_turns)
         = inr (VStr Samples.neutral_message, history) /\
       handler Samples.lower Samples.key Samples.request_ten_turns
       = proceed Samples.lower Samples.key
           (VStr Samples.neutral_message) history).
Proof.
  apply (invalid_message_iff Samples.lower Samples.key
           Samples.upstream_fails Samples.request_ten_turns);
    reflexivity.
Defined.

(** C10 at a request that upstream answers. *)
Lemma one_model_for_every_tier_witness :
  get (json {| status := 200;
               json := VObj [(lit "reply", VStr (lit "Happy to help."));
                             (lit "model", VStr (lit "x-ai/grok-4.1-fast"));
                             (lit "complexity", VStr (lit "complex"))] |})
      (lit "model")
    = inr (VStr (lit "x-ai/grok-4.1-fast")) /\
  exists r,
    calls (fst (run Samples.upstream_replies
                  (handler Samples.lower Samples.key
                     Samples.request_ten_turns))) = [r] /\
    model (fetch_body r) = lit "x-ai/grok-4.1-fast".
Proof.
  apply (proj2 (one_model_for_every_tier Samples.lower Samples.key
                  Samples.upstream_replies) Samples.request_ten_turns).
  - vm_compute. reflexivity.
  - reflexivity.
Defined.

End HandlerSpec.

(* ================================================================== *)
(** * More on the classifier *)
(* ================================================================== *)

Module ClassifierTable.
Import JS ApiChat JSFacts ClassifierSpec.

Section Table.

Variable toLowerCase : jsstring -> jsstring.

Lemma keyword_spec (text : jsstring) :
  existsb (fun p => includes text p) complexPatterns = true <->
  exists p, In p complexPatterns /\ includes text p = true.
Proof. apply existsb_exists. Qed.

(** X1.  The three tiers, each by the exact condition under which the
    classifier returns it: [simple] for a greeting or at most 4 words;
    [complex] for any other message that has a complex keyword in its
    normalized text, more than 25 words, or a history of more than 8
    turns; [medium] for what is left: no greeting, 5 to 25 words, no
    keyword, at most 8 turns. *)
Theorem decision_table (message : jsstring) (history : list value) :
  (detectComplexity toLowerCase message history = simple <->
   isGreeting (normalize toLowerCase message) = true \/
   (wordCount message <= 4)%nat) /\
  (detectComplexity toLowerCase message history = complex <->
   isGreeting (normalize toLowerCase message) = false /\
   (4 < wordCount message)%nat /\
   ((exists p, In p complexPatterns /\
               includes (normalize toLowerCase message) p = true) \/
    (25 < wordCount message)%nat \/
    (8 < length history)%nat)) /\
  (detectComplexity toLowerCase message history = medium <->
   isGreeting (normalize toLowerCase message) = false /\
   (5 <= wordCount message <= 25)%nat /\
   ~ (exists p, In p complexPatterns /\
                includes (normalize toLowerCase message) p = true) /\
   (length history <= 8)%nat).
Proof.
  unfold ApiChat.detectComplexity, isComplex.
  rewrite <- keyword_spec.
  destruct (isGreeting (normalize toLowerCase message)); cbn [orb];
    [|destruct (Nat.leb_spec (wordCount message) 4);
      [|destruct (existsb (fun p => includes (normalize toLowerCase message) p)
                   complexPatterns); cbn [orb];
        [|destruct (Nat.ltb_spec 25 (wordCount message)); cbn [orb];
          [|destruct (Nat.ltb_spec 8 (length history))]]]];
    intuition (try discriminate; try lia).
Qed.

(** No complex keyword starts or ends with white space, so [trim] neither
    hides nor creates an occurrence. *)
Lemma keyword_survives_trim (p : jsstring) (s : jsstring) :
  In p complexPatterns -> includes (trim s) p = includes s p.
Proof.
  intros Hin. unfold complexPatterns in Hin. cbn [map In] in Hin.
  repeat (destruct Hin as [<- | Hin];
          [eapply includes_trim; vm_compute; reflexivity|]).
  destruct Hin.
Qed.

(** X2.  Keywords are matched as substrings of the lower-cased message,
    inside words too: a message that is no greeting, has more than 4 words
    and contains any of the twenty keywords anywhere is [complex]. *)
Theorem keyword_anywhere_is_complex
    (message : jsstring) (history : list value) (p : jsstring) :
  In p complexPatterns ->
  includes (toLowerCase message) p = true ->
  (4 < wordCount message)%nat ->
  isGreeting (normalize toLowerCase message) = false ->
  detectComplexity toLowerCase message history = complex.
Proof.
  intros Hin Hp Hw Hg. rewrite not_simple_tier by assumption.
  assert (Hk : existsb (fun q => includes (normalize toLowerCase message) q)
                 complexPatterns = true).
  { apply keyword_spec. exists p. split; [exact Hin|].
    unfold normalize. rewrite keyword_survives_trim by exact Hin. exact Hp. }
  unfold isComplex. rewrite Hk. reflexivity.
Qed.

End Table.

Lemma keyword_anywhere_is_complex_witness :
  detectComplexity Samples.lower Samples.keyword_inside_words [] = complex.
Proof.
  apply (keyword_anywhere_is_complex Samples.lower
           Samples.keyword_inside_words [] (lit "soc")).
  - unfold complexPatterns. apply in_map. simpl. tauto.
  - vm_compute. reflexivity.
  - vm_compute. lia.
  - vm_compute. reflexivity.
Defined.

End ClassifierTable.

(* ================================================================== *)
(** * More on the handler *)
(* ================================================================== *)

Module HandlerFacts.
Import JS Eff ApiChat JSFacts HandlerSpec.

(** Case analysis of a [try] block on the answer to the call [r]. *)
Ltac by_upstream_answer upstream r :=
  cbn [try_catch bind run];
  destruct (upstream r) as [?e | ?resp];
  cbn [lift bind try_catch run respond]; [reflexivity|];
  match goal with
  | |- context [ok ?resp] =>
      destruct (ok resp); cbn [negb lift bind try_catch run respond];
      [|reflexivity];
      destruct (response_json resp) as [?data|];
      cbn [lift bind try_catch run respond]; [|reflexivity]
  end;
  match goal with
  | |- context [replyOf ?data] =>
      destruct (replyOf data) as [?e | ?reply];
      cbn [lift bind try_catch run respond]; [reflexivity|]
  end;
  match goal with
  | |- context [ToBoolean ?reply] =>
      destruct (ToBoolean reply);
      cbn [negb lift bind try_catch run respond]; reflexivity
  end.

(** ** Where a TypeError comes from *)

Lemma get_error (v : value) (name : jsstring) (e : exn) :
  get v name = inl e <-> e = TypeError /\ nullish v = true.
Proof.
  destruct v; cbn;
    (split;
     [intros H; inversion H; split; reflexivity
     |intros [-> H]; first [reflexivity | discriminate H]]).
Qed.

Lemma get_defined (v : value) (name : jsstring) :
  nullish v = false -> exists x, get v name = inr x.
Proof. destruct v; cbn; try discriminate; eauto. Qed.

Lemma destructure_error (body : value) (e : exn) :
  destructure body = inl e <-> e = TypeError /\ nullish body = true.
Proof.
  unfold destructure. split.
  - destruct (get body (lit "message")) as [e' | m] eqn:Em; cbn [ebind].
    + intros H; inversion H; subst. apply get_error in Em. exact Em.
    + destruct (get body (lit "history")) as [e' | h] eqn:Eh; cbn [ebind];
        [|discriminate].
      intros H; inversion H; subst. apply get_error in Eh. exact Eh.
  - intros [-> Hn]. destruct body; try discriminate; reflexivity.
Qed.

Lemma chatTurn_error (m : value) (e : exn) :
  chatTurn m = inl e <-> e = TypeError /\ nullish m = true.
Proof.
  unfold chatTurn. split.
  - destruct (get m (lit "sender")) as [e' | x] eqn:Es; cbn [ebind].
    + intros H; inversion H; subst. apply get_error in Es. exact Es.
    + destruct (get m (lit "text")) as [e' | y] eqn:Et; cbn [ebind];
        [|discriminate].
      intros H; inversion H; subst. apply get_error in Et. exact Et.
  - intros [-> Hn]. destruct m; try discriminate; reflexivity.
Qed.

(** The window of turns is forwarded unless one of them is [null] or
    [undefined]. *)
Lemma Array_map_chatTurn_error (l : list value) (e : exn) :
  Array_map chatTurn l = inl e <->
  e = TypeError /\ Exists (fun m => nullish m = true) l.
Proof.
  revert e. induction l as [|m l IH]; intros e; cbn [Array_map].
  - split; [discriminate | intros [_ H]; inversion H].
  - destruct (chatTurn m) as [e' | t] eqn:Em; cbn [ebind].
    + apply chatTurn_error in Em. destruct Em as [-> Hn]. split.
      * intros H; inversion H; subst. split; [reflexivity|].
        constructor; exact Hn.
      * intros [-> _]. reflexivity.
    + destruct (Array_map chatTurn l) as [e' | ts]; cbn [ebind].
      * destruct (proj1 (IH e') eq_refl) as [-> Hex]. split.
        -- intros H; inversion H; subst.
           split; [reflexivity | apply Exists_cons_tl; exact Hex].
        -- intros [-> _]. reflexivity.
      * split; [discriminate|]. intros [-> Hex].
        inversion Hex as [? ? Hn | ? ? Hl]; subst.
        -- assert (chatTurn m = inl TypeError)
             by (apply chatTurn_error; auto). congruence.
        -- assert (@inr exn (list ChatMessage) ts = inl TypeError)
             by (apply IH; auto). discriminate.
Qed.

Lemma chatHistory_error (hist : list value) (e : exn) :
  chatHistory hist = inl e <->
  e = TypeError /\
  Exists (fun m => nullish m = true) (skipn (length hist - 6) hist).
Proof.
  unfold chatHistory. change (-6)%Z with (- Z.of_nat 6)%Z.
  rewrite slice_from_suffix by lia. apply Array_map_chatTurn_error.
Qed.

Lemma run_lift (upstream : FetchRequest -> exn + Response)
    (x : exn + HttpResult) :
  run upstream (lift x) = ([], x).
Proof. destruct x; reflexivity. Qed.

Section Invocation.

Variable toLowerCase : jsstring -> jsstring.
Variable OPENROUTER_API_KEY : option jsstring.
Variable upstream : FetchRequest -> exn + Response.

(** The run of the [try] block, by the upstream answer. *)
Lemma exchange_run (model : jsstring) (c : Tier)
    (turns : list ChatMessage) (s : jsstring) :
  run upstream (exchange OPENROUTER_API_KEY model c turns s) =
  let r := upstreamRequest OPENROUTER_API_KEY model turns s in
  let caught e := Logged (LogMessageOf (lit "Chat handler error:") e) in
  match upstream r with
  | inl e => ([Fetched r; caught e], inr generic_failure)
  | inr resp =>
      if ok resp then
        match response_json resp with
        | Some data =>
            match replyOf data with
            | inl e => ([Fetched r; caught e], inr generic_failure)
            | inr reply =>
                if ToBoolean reply then
                  ([Fetched r],
                   inr {| status := 200;
                          json := VObj [(lit "reply", reply);
                                        (lit "model", VStr model);
                                        (lit "complexity",
                                         VStr (tier_name c))] |})
                else
                  ([Fetched r; caught (Error (lit "No response from model"))],
                   inr generic_failure)
            end
        | None => ([Fetched r; caught SyntaxError], inr generic_failure)
        end
      else
        ([Fetched r;
          Logged (LogText (lit "OpenRouter error:") (response_text resp));
          caught (Error (lit "OpenRouter request failed"))],
         inr generic_failure)
  end.
Proof.
  cbv zeta. unfold exchange, fetch.
  set (r := upstreamRequest OPENROUTER_API_KEY model turns s).
  by_upstream_answer upstream r.
Qed.

(** Before the [try] block the handler either accepts the request or is
    done, with an uncaught TypeError or one of three answers. *)
Lemma early_exit (req : Request) :
  (exists m hist turns, accepted OPENROUTER_API_KEY req m hist turns) \/
  (exists x : exn + HttpResult,
      handler toLowerCase OPENROUTER_API_KEY req = lift x /\
      (x = inl TypeError \/ x = inr method_not_allowed \/
       x = inr key_not_configured \/ x = inr invalid_message)).
Proof.
  unfold handler.
  destruct (str_eqb (method req) (lit "POST")) eqn:Em; cbn [negb].
  2:{ right. exists (inr method_not_allowed). auto. }
  apply str_eqb_eq in Em.
  destruct (ToBoolean (env_value OPENROUTER_API_KEY)) eqn:Ek; cbn [negb].
  2:{ right. exists (inr key_not_configured). auto. }
  destruct (destructure (body req)) as [e | [message history]] eqn:Ed;
    cbn [lift bind].
  { apply destructure_error in Ed. destruct Ed as [-> _].
    right. exists (inl TypeError). auto. }
  assert (Hbad : exists x : exn + HttpResult,
             respond 400 (error_body "Invalid message") = lift x /\
             (x = inl TypeError \/ x = inr method_not_allowed \/
              x = inr key_not_configured \/ x = inr invalid_message))
    by (exists (inr invalid_message); auto).
  destruct message as [| |b|x|m|elems|props];
    cbn [ToBoolean typeof_string negb orb]; rewrite ?orb_true_r;
    try (right; exact Hbad).
  destruct m as [|c m]; cbn [negb orb]; [right; exact Hbad|].
  unfold proceed. cbn [sanitize lift bind].
  destruct history as [| |b|x|s|hist|props]; cbn [as_array lift bind];
    try solve [right; exists (inl TypeError); auto].
  destruct (chatHistory hist) as [e | turns] eqn:Ec; cbn [lift bind].
  { apply chatHistory_error in Ec. destruct Ec as [-> _].
    right. exists (inl TypeError). auto. }
  left. exists (c :: m), hist, turns. repeat split; try assumption.
  discriminate.
Qed.

(** The same run, read as: one call, then either the generic failure or
    the answer with the reply. *)
Lemma exchange_outcomes (model : jsstring) (c : Tier)
    (turns : list ChatMessage) (s : jsstring) :
  exists t x,
    run upstream (exchange OPENROUTER_API_KEY model c turns s)
    = (Fetched (upstreamRequest OPENROUTER_API_KEY model turns s) :: t, x) /\
    calls t = [] /\
    (x = inr generic_failure \/
     exists reply,
       ToBoolean reply = true /\
       x = inr {| status := 200;
                  json := VObj [(lit "reply", reply);
                                (lit "model", VStr model);
                                (lit "complexity", VStr (tier_name c))] |}).
Proof.
  rewrite exchange_run. cbv zeta.
  destruct (upstream _) as [e | resp]; [eauto 6|].
  destruct (ok resp); [|eauto 6].
  destruct (response_json resp) as [data|]; [|eauto 6].
  destruct (replyOf data) as [e | reply]; [eauto 6|].
  destruct (ToBoolean reply) eqn:Et; [|eauto 6].
  do 2 eexists. split; [reflexivity|]. split; [reflexivity|].
  right. exists reply. auto.
Qed.

(** X3.  One invocation calls upstream at most once (there is no retry),
    and whatever it logs, it logs after that call. *)
Theorem at_most_one_upstream_call (req : Request) :
  (length (calls (fst (run upstream
                         (handler toLowerCase OPENROUTER_API_KEY req))))
   <= 1)%nat /\
  (forall l : LogEntry,
      In (Logged l)
         (fst (run upstream (handler toLowerCase OPENROUTER_API_KEY req))) ->
      exists r t,
        fst (run upstream (handler toLowerCase OPENROUTER_API_KEY req))
        = Fetched r :: t).
Proof.
  destruct (early_exit req) as [(m & hist & turns & Hacc) | (x & -> & _)].
  - rewrite (handler_accepted _ _ _ _ _ _ Hacc). cbv zeta.
    destruct (exchange_outcomes
                (MODELS (detectComplexity toLowerCase (slice m 0 500) hist))
                (detectComplexity toLowerCase (slice m 0 500) hist)
                turns (slice m 0 500)) as (t & x & -> & Ht & _).
    cbn [fst calls length]. rewrite Ht. split; [cbn; lia | eauto].
  - rewrite run_lift. split; [cbn; lia | intros l []].
Qed.

(** X4.  Every invocation ends in one of two ways.  Without any call or
    log: an uncaught TypeError, or one of the answers 405, 500 'API key
    not configured', 400.  After exactly one call: the generic 500, or a
    200 whose [reply] is truthy and whose [model] is the model that was
    sent.  So no other status is ever returned, nothing but a TypeError
    escapes, and nothing escapes once upstream has been called. *)
Theorem outcomes_of_the_handler (req : Request) :
  (fst (run upstream (handler toLowerCase OPENROUTER_API_KEY req)) = [] /\
   (snd (run upstream (handler toLowerCase OPENROUTER_API_KEY req))
      = inl TypeError \/
    snd (run upstream (handler toLowerCase OPENROUTER_API_KEY req))
      = inr method_not_allowed \/
    snd (run upstream (handler toLowerCase OPENROUTER_API_KEY req))
      = inr key_not_configured \/
    snd (run upstream (handler toLowerCase OPENROUTER_API_KEY req))
      = inr invalid_message))
  \/
  (exists r : FetchRequest,
      calls (fst (run upstream (handler toLowerCase OPENROUTER_API_KEY req)))
      = [r] /\
      (snd (run upstream (handler toLowerCase OPENROUTER_API_KEY req))
         = inr generic_failure \/
       exists (reply : value) (c : Tier),
         ToBoolean reply = true /\
         snd (run upstream (handler toLowerCase OPENROUTER_API_KEY req))
         = inr {| status := 200;
                  json := VObj [(lit "reply", reply);
                                (lit "model", VStr (model (fetch_body r)));
                                (lit "complexity", VStr (tier_name c))] |})).
Proof.
  destruct (early_exit req) as [(m & hist & turns & Hacc) | (x & -> & Hx)].
  - right. rewrite (handler_accepted _ _ _ _ _ _ Hacc). cbv zeta.
    destruct (exchange_outcomes
                (MODELS (detectComplexity toLowerCase (slice m 0 500) hist))
                (detectComplexity toLowerCase (slice m 0 500) hist)
                turns (slice m 0 500)) as (t & x & -> & Ht & Hx).
    eexists. cbn [fst snd calls]. rewrite Ht. split; [reflexivity|].
    destruct Hx as [-> | (reply & Hr & ->)]; [left; reflexivity|].
    right. exists reply. eexists. split; [exact Hr | reflexivity].
  - left. rewrite run_lift. split; [reflexivity | exact Hx].
Qed.

(** X5.  The handler lets an exception escape exactly in these cases, and
    then it is a TypeError: a POST with the key set whose body is [null]
    or [undefined]; or whose [message] is a non-empty string while
    [history] is present and not an array, or is an array with a [null] or
    [undefined] among its last six elements.  A [null] further back in the
    history does no harm. *)
Theorem uncaught_exception_iff (req : Request) (e : exn) :
  snd (run upstream (handler toLowerCase OPENROUTER_API_KEY req)) = inl e <->
  e = TypeError /\
  method req = lit "POST" /\
  ToBoolean (env_value OPENROUTER_API_KEY) = true /\
  (nullish (body req) = true \/
   exists (m : jsstring) (history : value),
     destructure (body req) = inr (VStr m, history) /\
     m <> [] /\
     ((forall hist, history <> VArr hist) \/
      exists hist,
        history = VArr hist /\
        Exists (fun turn => nullish turn = true)
               (skipn (length hist - 6) hist))).
Proof.
  split.
  - unfold handler.
    destruct (str_eqb (method req) (lit "POST")) eqn:Em; cbn [negb];
      [|cbn; discriminate].
    apply str_eqb_eq in Em.
    destruct (ToBoolean (env_value OPENROUTER_API_KEY)) eqn:Ek; cbn [negb];
      [|cbn; discriminate].
    destruct (destructure (body req)) as [e0 | [message history]] eqn:Ed;
      cbn [lift bind].
    { cbn [run snd]. intros H; inversion H; subst e0.
      apply destructure_error in Ed. destruct Ed as [-> Hn]. auto. }
    destruct message as [| |b|x|m|elems|props];
      cbn [ToBoolean typeof_string negb orb]; rewrite ?orb_true_r;
      try (cbn [respond run snd]; discriminate).
    destruct m as [|c m]; cbn [negb orb];
      [cbn [respond run snd]; discriminate|].
    unfold proceed. cbn [sanitize lift bind].
    destruct history as [| |b|x|s|hist|props]; cbn [as_array lift bind];
      try (cbn [run snd]; intros H; inversion H;
           repeat (split; [solve [auto]|]); right;
           eexists; eexists; split; [reflexivity|];
           split; [discriminate|]; left; intros hist; discriminate).
    destruct (chatHistory hist) as [e0 | turns] eqn:Ec; cbn [lift bind].
    + cbn [run snd]. intros H; inversion H; subst e0.
      apply chatHistory_error in Ec. destruct Ec as [-> Hex].
      repeat (split; [solve [auto]|]). right.
      exists (c :: m), (VArr hist). split; [reflexivity|].
      split; [discriminate|]. right. exists hist. auto.
    + destruct (exchange_outcomes
                  (MODELS (detectComplexity toLowerCase
                             (slice (c :: m) 0 500) hist))
                  (detectComplexity toLowerCase (slice (c :: m) 0 500) hist)
                  turns (slice (c :: m) 0 500))
        as (t & x & -> & _ & [-> | (reply & _ & ->)]);
        cbn [snd]; discriminate.
  - intros (-> & Hm & Hk & Hcases). unfold handler.
    rewrite Hm, str_eqb_refl, Hk. cbn [negb].
    destruct Hcases as [Hn | (m & history & Hd & Hne & Hh)].
    + rewrite (proj2 (destructure_error (body req) TypeError)
                 (conj eq_refl Hn)). reflexivity.
    + rewrite Hd. cbn [lift bind]. destruct m as [|c m]; [congruence|].
      cbn [ToBoolean typeof_string negb orb]. unfold proceed.
      cbn [sanitize lift bind].
      destruct Hh as [Hna | (hist & -> & Hex)].
      * destruct history; cbn [as_array lift bind run snd];
          try reflexivity.
        exfalso. eapply Hna. reflexivity.
      * cbn [as_array lift bind].
        rewrite (proj2 (chatHistory_error hist TypeError)
                   (conj eq_refl Hex)). reflexivity.
Qed.

(** X6.  When the call itself fails (the network is down, [fetch]
    rejects), the error is logged once and the caller gets the generic 500;
    there is no second attempt. *)
Theorem network_failure_is_generic
    (req : Request) (r : FetchRequest) (e : exn) :
  In r (calls (fst (run upstream
                      (handler toLowerCase OPENROUTER_API_KEY req)))) ->
  upstream r = inl e ->
  run upstream (handler toLowerCase OPENROUTER_API_KEY req)
  = ([Fetched r; Logged (LogMessageOf (lit "Chat handler error:") e)],
     inr generic_failure).
Proof.
  intros Hin Hup.
  destruct (call_inversion _ _ _ _ _ Hin) as (m & hist & turns & Hacc & ->).
  rewrite (handler_accepted _ _ _ _ _ _ Hacc). cbv zeta.
  rewrite exchange_run. cbv zeta. rewrite Hup. reflexivity.
Qed.

(** X7.  When upstream answers with an error status, the text of its
    answer is written to the server log, followed by the handler's own
    error, and appears nowhere else: the events are the call and these two
    log entries, and the answer is the generic 500. *)
Theorem upstream_error_is_logged
    (req : Request) (r : FetchRequest) (resp : Response) :
  In r (calls (fst (run upstream
                      (handler toLowerCase OPENROUTER_API_KEY req)))) ->
  upstream r = inr resp ->
  ok resp = false ->
  run upstream (handler toLowerCase OPENROUTER_API_KEY req)
  = ([Fetched r;
      Logged (LogText (lit "OpenRouter error:") (response_text resp));
      Logged (LogMessageOf (lit "Chat handler error:")
                (Error (lit "OpenRouter request failed")))],
     inr generic_failure).
Proof.
  intros Hin Hup Hok.
  destruct (call_inversion _ _ _ _ _ Hin) as (m & hist & turns & Hacc & ->).
  rewrite (handler_accepted _ _ _ _ _ _ Hacc). cbv zeta.
  rewrite exchange_run. cbv zeta. rewrite Hup, Hok. reflexivity.
Qed.

(** X8.  When upstream answers with a success status and a reply can be
    extracted, the handler logs nothing and answers 200 with that reply
    unchanged, the model it sent, and the tier of the first 500 code units
    of [message] with the whole history (not only the six turns that were
    forwarded). *)
Theorem success_answer
    (req : Request) (r : FetchRequest) (resp : Response) (reply : value) :
  In r (calls (fst (run upstream
                      (handler toLowerCase OPENROUTER_API_KEY req)))) ->
  upstream r = inr resp ->
  ok resp = true ->
  extractable resp reply ->
  exists (m : jsstring) (hist : list value),
    destructure (body req) = inr (VStr m, VArr hist) /\
    run upstream (handler toLowerCase OPENROUTER_API_KEY req)
    = ([Fetched r],
       inr {| status := 200;
              json :=
                VObj [(lit "reply", reply);
                      (lit "model", VStr (model (fetch_body r)));
                      (lit "complexity",
                       VStr (tier_name
                               (detectComplexity toLowerCase
                                  (firstn 500 m) hist)))] |}).
Proof.
  intros Hin Hup Hok (data & Hj & Hr & Ht).
  destruct (call_inversion _ _ _ _ _ Hin) as (m & hist & turns & Hacc & ->).
  exists m, hist. split; [apply Hacc|].
  rewrite (handler_accepted _ _ _ _ _ _ Hacc). cbv zeta.
  rewrite exchange_run. cbv zeta. rewrite Hup, Hok, Hj, Hr, Ht.
  change 500%Z with (Z.of_nat 500). rewrite slice_prefix. reflexivity.
Qed.

(** X9.  Every upstream call is a POST to the OpenRouter chat-completions
    address that carries the configured, non-empty key as bearer token (so
    never 'Bearer undefined'), the JSON content type and the two
    identifying headers, and asks for at most 300 tokens at temperature
    0.7. *)
Theorem upstream_call_parameters (req : Request) (r : FetchRequest) :
  In r (calls (fst (run upstream
                      (handler toLowerCase OPENROUTER_API_KEY req)))) ->
  exists k : jsstring,
    OPENROUTER_API_KEY = Some k /\ k <> [] /\
    url r = lit "https://openrouter.ai/api/v1/chat/completions" /\
    fetch_method r = lit "POST" /\
    headers r = [(lit "Authorization", lit "Bearer " ++ k);
                 (lit "Content-Type", lit "application/json");
                 (lit "HTTP-Referer", lit "https://valure.io");
                 (lit "X-Title", lit "Valure AI Assistant")] /\
    max_tokens (fetch_body r) = 300%Z /\
    temperature (fetch_body r) = temperature_0_7.
Proof.
  intros Hin.
  destruct (call_inversion _ _ _ _ _ Hin) as (m & hist & turns & Hacc & ->).
  destruct Hacc as (_ & Hk & _).
  destruct OPENROUTER_API_KEY as [k|]; [|discriminate].
  exists k. split; [reflexivity|].
  split; [destruct k; [discriminate | discriminate]|].
  repeat split.
Qed.

(** X10.  A request without [history] is handled as one with an empty
    history: for a POST with the key set and a non-empty string [message],
    exactly the persona prompt and the truncated message are sent, with the
    model of the tier computed for no prior turn. *)
Theorem absent_history_is_empty
    (req : Request) (props : list (jsstring * value)) (m : jsstring) :
  method req = lit "POST" ->
  ToBoolean (env_value OPENROUTER_API_KEY) = true ->
  body req = VObj props ->
  lookup props (lit "message") = VStr m ->
  m <> [] ->
  lookup props (lit "history") = VUndefined ->
  exists r : FetchRequest,
    calls (fst (run upstream (handler toLowerCase OPENROUTER_API_KEY req)))
    = [r] /\
    messages (fetch_body r)
    = [{| role := system; content := VStr SYSTEM_PROMPT |};
       {| role := user; content := VStr (firstn 500 m) |}] /\
    model (fetch_body r)
    = MODELS (detectComplexity toLowerCase (firstn 500 m) []).
Proof.
  intros Hm Hk Hb Hmsg Hne Hh.
  assert (Hacc : accepted OPENROUTER_API_KEY req m [] []).
  { repeat split; try assumption.
    rewrite Hb. unfold destructure. cbn [get ebind].
    rewrite Hmsg, Hh. reflexivity. }
  rewrite (handler_accepted _ _ _ _ _ _ Hacc). cbv zeta.
  rewrite exchange_calls. eexists. split; [reflexivity|].
  cbn [upstreamRequest fetch_body messages model app].
  change 500%Z with (Z.of_nat 500). rewrite slice_prefix. split; reflexivity.
Qed.

End Invocation.

Section Secrecy.

Variable toLowerCase : jsstring -> jsstring.
Variable upstream : FetchRequest -> exn + Response.

(** X11.  The key stays on the server: as long as a key is configured and
    upstream does not answer differently for different request headers,
    neither the result of an invocation nor what it logs depends on which
    key it is. *)
Theorem key_stays_on_the_server (k k' : option jsstring) (req : Request) :
  ToBoolean (env_value k) = true ->
  ToBoolean (env_value k') = true ->
  (forall r r', fetch_body r = fetch_body r' -> upstream r = upstream r') ->
  snd (run upstream (handler toLowerCase k req))
  = snd (run upstream (handler toLowerCase k' req)) /\
  logs (fst (run upstream (handler toLowerCase k req)))
  = logs (fst (run upstream (handler toLowerCase k' req))).
Proof.
  intros Hk Hk' Hup. unfold handler. rewrite Hk, Hk'.
  destruct (str_eqb (method req) (lit "POST")); cbn [negb];
    [|split; reflexivity].
  destruct (destructure (body req)) as [e | [message history]];
    cbn [lift bind]; [split; reflexivity|].
  destruct (negb (ToBoolean message) || negb (typeof_string message));
    [split; reflexivity|].
  unfold proceed.
  destruct (sanitize message) as [e | sanitized]; cbn [lift bind];
    [split; reflexivity|].
  destruct (as_array history) as [e | hist]; cbn [lift bind];
    [split; reflexivity|].
  destruct (chatHistory hist) as [e | turns]; cbn [lift bind];
    [split; reflexivity|].
  rewrite !exchange_run. cbv zeta.
  rewrite (Hup (upstreamRequest k _ turns sanitized)
               (upstreamRequest k' _ turns sanitized) eq_refl).
  destruct (upstream _) as [e | resp]; [split; reflexivity|].
  destruct (ok resp); [|split; reflexivity].
  destruct (response_json resp) as [data|]; [|split; reflexivity].
  destruct (replyOf data) as [e | reply]; [split; reflexivity|].
  destruct (ToBoolean reply); split; reflexivity.
Qed.

End Secrecy.

(** X5 at a POST without a body. *)
Example no_body_is_uncaught :
  run Samples.upstream_replies
      (handler Samples.lower Samples.key Samples.request_no_body)
  = ([], inl TypeError).
Proof. reflexivity. Qed.

(** X5 at a history that is a string. *)
Example string_history_is_uncaught :
  run Samples.upstream_replies
      (handler Samples.lower Samples.key Samples.request_history_string)
  = ([], inl TypeError).
Proof. reflexivity. Qed.

(** X5 at a history with a [null] outside the window: the call is made. *)
Example null_outside_the_window :
  length (calls (fst (run Samples.upstream_replies
                        (handler Samples.lower Samples.key
                           (Samples.post
                              [(lit "message", VStr Samples.neutral_message);
                               (lit "history",
                                VArr Samples.null_then_seven)])))))
  = 1.
Proof. vm_compute. reflexivity. Qed.

Lemma network_failure_is_generic_witness :
  run Samples.upstream_unreachable
      (handler Samples.lower Samples.key Samples.request_ten_turns)
  = ([Fetched Samples.call_ten_turns;
      Logged (LogMessageOf (lit "Chat handler error:") NetworkError)],
     inr generic_failure).
Proof.
  apply (network_failure_is_generic Samples.lower Samples.key
           Samples.upstream_unreachable Samples.request_ten_turns
           Samples.call_ten_turns NetworkError).
  - vm_compute. left. reflexivity.
  - reflexivity.
Defined.

Lemma upstream_error_is_logged_witness :
  run Samples.upstream_fails
      (handler Samples.lower Samples.key Samples.request_ten_turns)
  = ([Fetched Samples.call_ten_turns;
      Logged (LogText (lit "OpenRouter error:")
                (response_text Samples.rate_limited));
      Logged (LogMessageOf (lit "Chat handler error:")
                (Error (lit "OpenRouter request failed")))],
     inr generic_failure).
Proof.
  apply (upstream_error_is_logged Samples.lower Samples.key
           Samples.upstream_fails Samples.request_ten_turns
           Samples.call_ten_turns Samples.rate_limited).
  - vm_compute. left. reflexivity.
  - reflexivity.
  - reflexivity.
Defined.

Lemma success_answer_witness :
  exists (m : jsstring) (hist : list value),
    destructure (body Samples.request_ten_turns)
      = inr (VStr m, VArr hist) /\
    run Samples.upstream_replies
        (handler Samples.lower Samples.key Samples.request_ten_turns)
    = ([Fetched Samples.call_ten_turns],
       inr {| status := 200;
              json :=
                VObj [(lit "reply", VStr (lit "Happy to help."));
                      (lit "model",
                       VStr (model (fetch_body Samples.call_ten_turns)));
                      (lit "complexity",
                       VStr (tier_name
                               (detectComplexity Samples.lower
                                  (firstn 500 m) hist)))] |}).
Proof.
  apply (success_answer Samples.lower Samples.key Samples.upstream_replies
           Samples.request_ten_turns Samples.call_ten_turns
           Samples.happy_answer (VStr (lit "Happy to help."))).
  - vm_compute. left. reflexivity.
  - reflexivity.
  - reflexivity.
  - eexists. repeat split.
Defined.

Lemma upstream_call_parameters_witness :
  exists k : jsstring,
    Samples.key = Some k /\ k <> [] /\
    url Samples.call_ten_turns
      = lit "https://openrouter.ai/api/v1/chat/completions" /\
    fetch_method Samples.call_ten_turns = lit "POST" /\
    headers Samples.call_ten_turns
      = [(lit "Authorization", lit "Bearer " ++ k);
         (lit "Content-Type", lit "application/json");
         (lit "HTTP-Referer", lit "https://valure.io");
         (lit "X-Title", lit "Valure AI Assistant")] /\
    max_tokens (fetch_body Samples.call_ten_turns) = 300%Z /\
    temperature (fetch_body Samples.call_ten_turns) = temperature_0_7.
Proof.
  apply (upstream_call_parameters Samples.lower Samples.key
           Samples.upstream_replies Samples.request_ten_turns
           Samples.call_ten_turns).
  vm_compute. left. reflexivity.
Defined.

Lemma absent_history_is_empty_witness :
  exists r : FetchRequest,
    calls (fst (run Samples.upstream_replies
                  (handler Samples.lower Samples.key
                     Samples.request_no_history)))
    = [r] /\
    messages (fetch_body r)
    = [{| role := system; content := VStr SYSTEM_PROMPT |};
       {| role := user;
          content := VStr (firstn 500 Samples.neutral_message) |}] /\
    model (fetch_body r)
    = MODELS (detectComplexity Samples.lower
                (firstn 500 Samples.neutral_message) []).
Proof.
  apply (absent_history_is_empty Samples.lower Samples.key
           Samples.upstream_replies Samples.request_no_history
           [(lit "message", VStr Samples.neutral_message)]);
    try reflexivity.
  discriminate.
Defined.

Lemma key_stays_on_the_server_witness :
  snd (run Samples.upstream_replies
         (handler Samples.lower Samples.key Samples.request_ten_turns))
  = snd (run Samples.upstream_replies
           (handler Samples.lower Samples.other_key
              Samples.request_ten_turns)) /\
  logs (fst (run Samples.upstream_replies
               (handler Samples.lower Samples.key
                  Samples.request_ten_turns)))
  = logs (fst (run Samples.upstream_replies
                 (handler Samples.lower Samples.other_key
                    Samples.request_ten_turns))).
Proof.
  apply (key_stays_on_the_server Samples.lower Samples.upstream_replies
           Samples.key Samples.other_key Samples.request_ten_turns).
  - reflexivity.
  - reflexivity.
  - intros r r' _. reflexivity.
Defined.

End HandlerFacts.

(* ================================================================== *)
(** * The handler of src/unnamed/part_000 *)
(* ================================================================== *)

Module Part000Facts.
Import JS Eff JSFacts HandlerSpec HandlerFacts.

Section Invocation.

Variable toLowerCase : jsstring -> jsstring.
Variable OPENROUTER_API_KEY : option jsstring.

Lemma p000_exchange_run (upstream : FetchRequest -> exn + Response)
    (model : jsstring) (c : ApiChat.Tier)
    (turns : list ChatMessage) (s : jsstring) :
  run upstream (Part000.exchange OPENROUTER_API_KEY model c turns s) =
  let r := Part000.upstreamRequest OPENROUTER_API_KEY model turns s in
  let caught e := Logged (LogMessageOf (lit "Chat handler error:") e) in
  match upstream r with
  | inl e => ([Fetched r; caught e], inr ApiChat.generic_failure)
  | inr resp =>
      if ok resp then
        match response_json resp with
        | Some data =>
            match ApiChat.replyOf data with
            | inl e => ([Fetched r; caught e], inr ApiChat.generic_failure)
            | inr reply =>
                if ToBoolean reply then
                  ([Fetched r],
                   inr {| status := 200;
                          json := VObj [(lit "reply", reply);
                                        (lit "model", VStr model);
                                        (lit "complexity",
                                         VStr (ApiChat.tier_name c))] |})
                else
                  ([Fetched r; caught (Error (lit "No response from model"))],
                   inr ApiChat.generic_failure)
            end
        | None =>
            ([Fetched r; caught SyntaxError], inr ApiChat.generic_failure)
        end
      else
        ([Fetched r;
          Logged (LogText (lit "OpenRouter error:") (response_text resp));
          caught (Error (lit "OpenRouter request failed"))],
         inr ApiChat.generic_failure)
  end.
Proof.
  cbv zeta. unfold Part000.exchange, fetch.
  set (r := Part000.upstreamRequest OPENROUTER_API_KEY model turns s).
  by_upstream_answer upstream r.
Qed.

Lemma p000_handler_accepted (req : Request) (m : jsstring)
    (hist : list value) (turns : list ChatMessage) :
  ApiChat.accepted OPENROUTER_API_KEY req m hist turns ->
  let sanitized := slice m 0 500 in
  let complexity := ApiChat.detectComplexity toLowerCase sanitized hist in
  Part000.handler toLowerCase OPENROUTER_API_KEY req =
  Part000.exchange OPENROUTER_API_KEY (Part000.MODELS complexity)
    complexity turns sanitized.
Proof.
  intros (Hm & Hk & Hd & Hne & Hc). unfold Part000.handler.
  rewrite Hm, str_eqb_refl, Hk, Hd. cbn [negb lift bind].
  destruct m as [|c m]; [congruence|].
  cbn [ToBoolean typeof_string negb orb]. unfold Part000.proceed.
  cbn [ApiChat.sanitize ApiChat.as_array lift bind]. rewrite Hc.
  reflexivity.
Qed.

(** Before their [try] blocks the two handlers are the same program. *)
Lemma both_exit_early (req : Request) :
  (exists m hist turns, ApiChat.accepted OPENROUTER_API_KEY req m hist turns)
  \/
  (exists x : exn + HttpResult,
      ApiChat.handler toLowerCase OPENROUTER_API_KEY req = lift x /\
      Part000.handler toLowerCase OPENROUTER_API_KEY req = lift x /\
      (x = inl TypeError \/ x = inr ApiChat.method_not_allowed \/
       x = inr ApiChat.key_not_configured \/
       x = inr ApiChat.invalid_message)).
Proof.
  unfold ApiChat.handler, Part000.handler.
  destruct (str_eqb (method req) (lit "POST")) eqn:Em; cbn [negb].
  2:{ right. exists (inr ApiChat.method_not_allowed). repeat split; auto 6. }
  apply str_eqb_eq in Em.
  destruct (ToBoolean (ApiChat.env_value OPENROUTER_API_KEY)) eqn:Ek;
    cbn [negb].
  2:{ right. exists (inr ApiChat.key_not_configured). repeat split; auto 6. }
  destruct (ApiChat.destructure (body req)) as [e | [message history]] eqn:Ed;
    cbn [lift bind].
  { apply destructure_error in Ed. destruct Ed as [-> _].
    right. exists (inl TypeError). repeat split; auto 6. }
  destruct message as [| |b|x|m|elems|props];
    cbn [ToBoolean typeof_string negb orb]; rewrite ?orb_true_r;
    try solve [right; exists (inr ApiChat.invalid_message); repeat split; auto 6].
  destruct m as [|c m]; cbn [negb orb];
    [right; exists (inr ApiChat.invalid_message); repeat split; auto 6|].
  unfold ApiChat.proceed, Part000.proceed.
  cbn [ApiChat.sanitize lift bind].
  destruct history as [| |b|x|s|hist|props];
    cbn [ApiChat.as_array lift bind];
    try solve [right; exists (inl TypeError); repeat split; auto 6].
  destruct (ApiChat.chatHistory hist) as [e | turns] eqn:Ec;
    cbn [lift bind].
  { apply chatHistory_error in Ec. destruct Ec as [-> _].
    right. exists (inl TypeError). repeat split; auto 6. }
  left. exists (c :: m), hist, turns. repeat split; try assumption.
  discriminate.
Qed.

(** X12.  In [part_000] the three tiers have three different models, so
    the model tells the tier: whenever that handler answers 200, the
    [model] of the answer is the model of the tier named in [complexity],
    and it is the model that was sent upstream. *)
Theorem model_tells_the_tier
    (upstream : FetchRequest -> exn + Response) :
  (forall t t' : ApiChat.Tier,
      Part000.MODELS t = Part000.MODELS t' -> t = t') /\
  (forall (req : Request) (res : HttpResult),
      snd (run upstream (Part000.handler toLowerCase OPENROUTER_API_KEY req))
      = inr res ->
      status res = 200%Z ->
      exists (c : ApiChat.Tier) (r : FetchRequest),
        calls (fst (run upstream
                      (Part000.handler toLowerCase OPENROUTER_API_KEY req)))
        = [r] /\
        model (fetch_body r) = Part000.MODELS c /\
        get (json res) (lit "model") = inr (VStr (Part000.MODELS c)) /\
        get (json res) (lit "complexity")
        = inr (VStr (ApiChat.tier_name c))).
Proof.
  split.
  { intros [] []; intros H; try reflexivity; vm_compute in H; discriminate. }
  intros req res Hres H200.
  destruct (both_exit_early req)
    as [(m & hist & turns & Hacc) | (x & _ & Hx & Hset)].
  - rewrite (p000_handler_accepted _ _ _ _ Hacc) in *. cbv zeta in *.
    rewrite p000_exchange_run in *. cbv zeta in *.
    destruct (upstream _) as [e | resp];
      [inversion Hres; subst res; discriminate|].
    destruct (ok resp); [|inversion Hres; subst res; discriminate].
    destruct (response_json resp) as [data|];
      [|inversion Hres; subst res; discriminate].
    destruct (ApiChat.replyOf data) as [e | reply];
      [inversion Hres; subst res; discriminate|].
    destruct (ToBoolean reply); [|inversion Hres; subst res; discriminate].
    inversion Hres; subst res. do 2 eexists.
    split; [reflexivity|]. repeat split.
  - rewrite Hx, run_lift in Hres. cbn [snd] in Hres. subst x.
    destruct Hset as [H | [H | [H | H]]]; inversion H; subst res;
      discriminate.
Qed.


End Invocation.

Lemma model_tells_the_tier_witness :
  exists (c : ApiChat.Tier) (r : FetchRequest),
    calls (fst (run Samples.upstream_replies
                  (Part000.handler Samples.lower Samples.key
                     Samples.request_ten_turns)))
    = [r] /\
    model (fetch_body r) = Part000.MODELS c /\
    get (json {| status := 200;
                 json :=
                   VObj [(lit "reply", VStr (lit "Happy to help."));
                         (lit "model",
                          VStr (lit "anthropic/claude-3-haiku-20240307"));
                         (lit "complexity", VStr (lit "complex"))] |})
        (lit "model")
    = inr (VStr (Part000.MODELS c)) /\
    get (json {| status := 200;
                 json :=
                   VObj [(lit "reply", VStr (lit "Happy to help."));
                         (lit "model",
                          VStr (lit "anthropic/claude-3-haiku-20240307"));
                         (lit "complexity", VStr (lit "complex"))] |})
        (lit "complexity")
    = inr (VStr (ApiChat.tier_name c)).
Proof.
  apply (proj2 (model_tells_the_tier Samples.lower Samples.key
                  Samples.upstream_replies) Samples.request_ten_turns).
  - vm_compute. reflexivity.
  - reflexivity.
Defined.

End Part000Facts.
